(** * Excel_Helper_Framework: the formula parser of [Models/parser.py]

    A shallow embedding of the class [Parser]: construction, classification
    ([parse_expression]), reconstruction ([json_to_string]), the key counter
    ([get_all_keys_with_counts]) and reference translation ([translate]).

    The trees the parser builds are plain Python values (nested [dict]s,
    [list]s, strings and numbers), so the embedding works on a type of Python
    values; a [dict] is an association list in insertion order, which is the
    order Python iterates it in. A string is a sequence of one-byte
    characters: the formulas are ASCII text. *)

From Stdlib Require Import ZArith Ascii String List Bool Lia DecimalString.
From stdpp Require Import base option list strings gmap.

Import ListNotations.
Local Open Scope string_scope.
Local Open Scope list_scope.
Local Open Scope nat_scope.
Local Open Scope bool_scope.

(* ===================================================================== *)
(** ** Python values *)
(* ===================================================================== *)

(** A float is kept as the text [str()] prints for it: the parser never
    computes with a constant, it only stores it and prints it back. *)
#[warnings="-register-all"]
Inductive value : Type :=
  | PNone
  | PBool (b : bool)
  | PInt (z : Z)
  | PFloat (shown : string)
  | PStr (s : string)
  | PList (items : list value)
  | PDict (entries : list (string * value)).

(** The exceptions the modelled code can raise. *)
Inductive exn : Type :=
  | ValueError (msg : string)
  | TypeError
  | KeyError (key : string)
  | AttributeError
  | RuntimeError.

(** The outcome of a call: a returned value, a raised exception, or the
    recursion budget of the model used up. *)
Inductive outcome (A : Type) : Type :=
  | Ret (a : A)
  | Raise (e : exn)
  | OutOfFuel.
Arguments Ret {A} a.
Arguments Raise {A} e.
Arguments OutOfFuel {A}.

Definition bind {A B : Type} (m : outcome A) (k : A -> outcome B) : outcome B :=
  match m with
  | Ret a => k a
  | Raise e => Raise e
  | OutOfFuel => OutOfFuel
  end.

Notation "'let*' x ':=' m 'in' k" := (bind m (fun x => k))
  (at level 10, x name, m at level 100, k at level 200).

(** [[f(x) for x in l]]: the calls run left to right and the first failure
    ends the comprehension. *)
Definition map_outcome {A B : Type} (f : A -> outcome B) : list A -> outcome (list B) :=
  fix go (l : list A) : outcome (list B) :=
    match l with
    | [] => Ret []
    | x :: l' => let* y := f x in let* ys := go l' in Ret (y :: ys)
    end.

(* --------------------------------------------------------------------- *)
(** *** Strings *)

Definition string_of_Z (z : Z) : string := NilZero.string_of_int (Z.to_int z).

Fixpoint join (sep : string) (l : list string) : string :=
  match l with
  | [] => ""
  | [s] => s
  | s :: l' => s +:+ sep +:+ join sep l'
  end.

(** [sub in s] on two strings. *)
Fixpoint contains (sub s : string) : bool :=
  String.prefix sub s ||
  match s with
  | EmptyString => false
  | String _ s' => contains sub s'
  end.

(** [s.replace(c, "")] for a one-character [c]. *)
Fixpoint remove_char (c : ascii) (s : string) : string :=
  match s with
  | EmptyString => EmptyString
  | String a s' => if Ascii.eqb a c then remove_char c s' else String a (remove_char c s')
  end.

(** The ASCII characters [str.isspace] accepts. *)
Definition is_space (c : ascii) : bool :=
  let n := nat_of_ascii c in
  ((9 <=? n) && (n <=? 13)) || ((28 <=? n) && (n <=? 32)).

Fixpoint lstrip (s : string) : string :=
  match s with
  | String c s' => if is_space c then lstrip s' else s
  | EmptyString => EmptyString
  end.

Fixpoint rstrip (s : string) : string :=
  match s with
  | EmptyString => EmptyString
  | String c s' =>
      match rstrip s' with
      | EmptyString => if is_space c then EmptyString else String c EmptyString
      | r => String c r
      end
  end.

(** [s.strip()] *)
Definition strip (s : string) : string := rstrip (lstrip s).

(* --------------------------------------------------------------------- *)
(** *** [repr] and [str] *)

Definition hex_digit (n : nat) : ascii :=
  ascii_of_nat (if n <? 10 then 48 + n else 87 + n).

Definition repr_char (quote : ascii) (c : ascii) : string :=
  let n := nat_of_ascii c in
  if Ascii.eqb c "\" then "\\"
  else if Ascii.eqb c quote then String "\" (String quote "")
  else if n =? 9 then "\t"
  else if n =? 10 then "\n"
  else if n =? 13 then "\r"
  else if (n <? 32) || (n =? 127) then
    String "\" (String "x" (String (hex_digit (n / 16)) (String (hex_digit (n mod 16)) "")))
  else String c "".

Fixpoint repr_chars (quote : ascii) (s : string) : string :=
  match s with
  | EmptyString => EmptyString
  | String c s' => repr_char quote c +:+ repr_chars quote s'
  end.

Definition squote : ascii := "'".
Definition dquote : ascii := ascii_of_nat 34.

(** [repr(s)] of a string: single quotes, unless the text has a single
    quote and no double quote. *)
Definition repr_str (s : string) : string :=
  let q := if contains (String squote "") s && negb (contains (String dquote "") s)
           then dquote else squote in
  String q (repr_chars q s +:+ String q "").

Fixpoint py_repr (v : value) : string :=
  match v with
  | PNone => "None"
  | PBool true => "True"
  | PBool false => "False"
  | PInt z => string_of_Z z
  | PFloat shown => shown
  | PStr s => repr_str s
  | PList items => "[" +:+ join ", " (map py_repr items) +:+ "]"
  | PDict entries =>
      "{" +:+ join ", " (map (fun kv => repr_str (fst kv) +:+ ": " +:+ py_repr (snd kv)) entries) +:+ "}"
  end.

(** [str(v)], which is also what an f-string field prints. *)
Definition py_str (v : value) : string :=
  match v with
  | PStr s => s
  | _ => py_repr v
  end.

(** Truth value of [v], as [if v] and [not v] take it. *)
Definition truthy (v : value) : bool :=
  match v with
  | PNone => false
  | PBool b => b
  | PInt z => negb (Z.eqb z 0)
  | PFloat shown => negb (String.eqb shown "0.0" || String.eqb shown "-0.0")
  | PStr s => negb (String.eqb s "")
  | PList items => match items with [] => false | _ => true end
  | PDict entries => match entries with [] => false | _ => true end
  end.

(* --------------------------------------------------------------------- *)
(** *** Dictionaries *)

Fixpoint dict_get (k : string) (d : list (string * value)) : option value :=
  match d with
  | [] => None
  | (k', v) :: d' => if String.eqb k k' then Some v else dict_get k d'
  end.

Definition dict_has (k : string) (d : list (string * value)) : bool :=
  match dict_get k d with Some _ => true | None => false end.

(** [d[k] = v]: an existing key keeps its place, a new key goes last. *)
Fixpoint dict_set (k : string) (v : value) (d : list (string * value)) : list (string * value) :=
  match d with
  | [] => [(k, v)]
  | (k', v') :: d' => if String.eqb k k' then (k, v) :: d' else (k', v') :: dict_set k v d'
  end.

Definition is_str (v : value) : bool := match v with PStr _ => true | _ => false end.

Definition value_is (s : string) (v : value) : bool :=
  match v with PStr s' => String.eqb s s' | _ => false end.

(** [k in v] for a string [k]: key of a dict, element of a list, substring
    of a string; anything else is not a container. *)
Definition py_in (k : string) (v : value) : outcome bool :=
  match v with
  | PDict entries => Ret (dict_has k entries)
  | PList items => Ret (existsb (value_is k) items)
  | PStr s => Ret (contains k s)
  | _ => Raise TypeError
  end.

(** [v[k]] for a string [k]. *)
Definition py_getitem (v : value) (k : string) : outcome value :=
  match v with
  | PDict entries =>
      match dict_get k entries with
      | Some x => Ret x
      | None => Raise (KeyError k)
      end
  | _ => Raise TypeError
  end.

Definition chars_of (s : string) : list value :=
  map (fun c => PStr (String c "")) (list_ascii_of_string s).

(** What [for x in v] goes through. *)
Definition py_iter (v : value) : outcome (list value) :=
  match v with
  | PList items => Ret items
  | PDict entries => Ret (map (fun kv => PStr (fst kv)) entries)
  | PStr s => Ret (chars_of s)
  | _ => Raise TypeError
  end.

(** [sep.join(items)]: every item has to be a string. *)
Definition py_join (sep : string) (items : list value) : outcome string :=
  if forallb is_str items then Ret (join sep (map py_str items)) else Raise TypeError.

(** [v[k] = x] for a string [k]. *)
Definition py_setitem (v : value) (k : string) (x : value) : outcome value :=
  match v with
  | PDict entries => Ret (PDict (dict_set k x entries))
  | _ => Raise TypeError
  end.

(* ===================================================================== *)
(** ** The classes [parser.py] imports

    [Models/reference.py], [function.py], [range.py], [expression.py] and
    [constant.py] are not part of the sources at hand. The parser is
    embedded over their interfaces: one class per imported Python class,
    with the attributes and methods [parser.py] uses, under the names it
    uses them by. An instance of a Python class is a value of the class's
    carrier type; a method that updates its object returns the updated
    object. A constructor or [from_dict] may raise. *)
(* ===================================================================== *)

Class FunctionClass : Type := {
  function_obj : Type;
  Function_is_function_string : string -> bool;
  Function_new : string -> outcome function_obj;
  Function_parse_arguments : function_obj -> function_obj;
  Function_name : function_obj -> value;
  Function_args : function_obj -> list value;
  Function_str : function_obj -> string;
  Function_from_dict : value -> outcome function_obj;
  Function_to_dict : function_obj -> value
}.

Class RangeClass : Type := {
  range_obj : Type;
  Range_is_valid_range : string -> bool;
  Range_new : string -> outcome range_obj;
  Range_str : range_obj -> string;
  Range_to_dict : range_obj -> value;
  (** [None] when the class has no attribute [from_dict]. *)
  Range_from_dict : option (value -> outcome range_obj)
}.

Class ReferenceClass : Type := {
  reference_obj : Type;
  Reference_is_valid_reference : string -> bool;
  Reference_new : string -> outcome reference_obj;
  Reference_column_number : reference_obj -> Z;
  Reference_row_number : reference_obj -> Z;
  Reference_update_column_number : reference_obj -> Z -> reference_obj;
  Reference_update_row_number : reference_obj -> Z -> reference_obj;
  Reference_str : reference_obj -> string;
  Reference_to_dict : reference_obj -> value;
  Reference_from_dict : value -> outcome reference_obj
}.

Class ConstantClass : Type := {
  constant_obj : Type;
  Constant_is_valid_constant : string -> bool;
  Constant_new : string -> outcome constant_obj;
  Constant_to_dict : constant_obj -> value
}.

Class ExpressionClass : Type := {
  expression_obj : Type;
  Expression_operators : list string;
  Expression_has_balanced_parentheses : string -> bool;
  Expression_is_valid_expression : string -> bool;
  Expression_new : string -> outcome expression_obj;
  (** the attribute [expression]: the parts the text was split into *)
  Expression_expression : expression_obj -> list value;
  Expression_str : expression_obj -> string;
  Expression_to_dict : expression_obj -> value;
  (** [None] when the class has no attribute [from_dict]. *)
  Expression_from_dict : option (value -> outcome expression_obj)
}.

(** [json.dumps(v, indent=4)] of the Python library. *)
Class JsonModule : Type := {
  json_dumps_indent4 : value -> outcome string
}.

(* ===================================================================== *)
(** ** class Parser *)
(* ===================================================================== *)

(** The attributes of a [Parser]; [parsed_formula] exists only once
    [translate] has set it. *)
Record parser : Type := {
  formula : string;
  full_formula : string;
  parsed_formula : option value
}.

(** [s[1:]] *)
Definition drop_first (s : string) : string :=
  match s with
  | EmptyString => EmptyString
  | String _ s' => s'
  end.

Module Parser.
Section WithClasses.

Context {FunctionC : FunctionClass} {RangeC : RangeClass}
        {ReferenceC : ReferenceClass} {ConstantC : ConstantClass}
        {ExpressionC : ExpressionClass} {JsonC : JsonModule}.

(** [Parser.__init__] *)
Definition init (formula_str : string) : outcome parser :=
  if negb (String.prefix "=" formula_str) then
    Raise (ValueError "Formula must start with an '=' sign.")
  else if negb (Expression_has_balanced_parentheses formula_str) then
    Raise (ValueError "Unbalanced parentheses in formula.")
  else
    Ret {| formula := drop_first formula_str;
           full_formula := formula_str;
           parsed_formula := None |}.

(** [any(op in expr for op in Expression.operators) and len(expr) == 1] *)
Definition is_single_operator (expr : string) : bool :=
  existsb (fun op => contains op expr) Expression_operators
  && (String.length expr =? 1).

(** [Parser.parse_expression]. A call on a value that is neither a [dict]
    nor a [str] falls through both tests and returns [None], as does a
    string no rule accepts. The values handed in are trees: no [dict] or
    [list] object occurs at two places. *)
Fixpoint parse_expression (fuel : nat) (expr : value) : outcome value :=
  match fuel with
  | 0 => OutOfFuel
  | S fuel' =>
    match expr with
    | PDict entries =>
        if dict_has "function" entries then
          let* components := py_getitem expr "components" in
          let* arguments := py_getitem components "arguments" in
          let* items := py_iter arguments in
          let* parsed := map_outcome (parse_expression fuel') items in
          let* components' := py_setitem components "arguments" (PList parsed) in
          Ret (PDict (dict_set "components" components' entries))
        else if dict_has "expression" entries then
          let* components := py_getitem expr "components" in
          parse_expression fuel' components
        else Ret expr
    | PStr s =>
        let expr := strip s in
        if Function_is_function_string expr then
          let* func0 := Function_new expr in
          let func := Function_parse_arguments func0 in
          let* arguments :=
            map_outcome (parse_expression fuel') (Function_args func) in
          Ret (PDict [("function", PStr (Function_str func));
                      ("components", PDict [("name", Function_name func);
                                            ("arguments", PList arguments)])])
        else if Range_is_valid_range expr then
          let* range_obj := Range_new expr in
          Ret (Range_to_dict range_obj)
        else if Reference_is_valid_reference expr then
          let* ref := Reference_new expr in
          Ret (Reference_to_dict ref)
        else if Constant_is_valid_constant expr then
          let* const := Constant_new expr in
          Ret (Constant_to_dict const)
        else if Expression_is_valid_expression expr then
          let* expression_obj := Expression_new expr in
          let* components :=
            map_outcome (parse_expression fuel') (Expression_expression expression_obj) in
          Ret (PDict [("expression", PStr (Expression_str expression_obj));
                      ("components", PList components)])
        else if is_single_operator expr then
          Ret (PDict [("operator", PStr expr)])
        else Ret PNone
    | _ => Ret PNone
    end
  end.

(** [Parser.parse] *)
Definition parse (fuel : nat) (self : parser) : outcome value :=
  parse_expression fuel (PStr (formula self)).

(** [Parser.to_dict] *)
Definition to_dict (fuel : nat) (self : parser) : outcome value :=
  parse fuel self.

(** [Parser.__str__] *)
Definition str (fuel : nat) (self : parser) : outcome string :=
  let* parsed_formula := parse fuel self in
  json_dumps_indent4 parsed_formula.

End WithClasses.

(** [Parser.json_to_string] (a static method). The tests [k in json_obj]
    are Python's: on a [dict] they look at the keys only. A node that
    carries none of the six keys falls through and gives [None]. *)
Fixpoint json_to_string (fuel : nat) (json_obj : value) : outcome value :=
  match fuel with
  | 0 => OutOfFuel
  | S fuel' =>
    let* is_function := py_in "function" json_obj in
    if is_function then
      let* func := py_getitem json_obj "components" in
      let* arguments := py_getitem func "arguments" in
      let* items := py_iter arguments in
      let* rendered := map_outcome (json_to_string fuel') items in
      let* args_str := py_join ", " rendered in
      let* name := py_getitem func "name" in
      Ret (PStr (py_str name +:+ "(" +:+ args_str +:+ ")"))
    else
    let* is_reference := py_in "reference" json_obj in
    if is_reference then
      let* cell_ref := py_getitem json_obj "components" in
      let* sheet_name := py_getitem cell_ref "sheet_name" in
      if negb (truthy sheet_name) then
        let* column_letter := py_getitem cell_ref "column_letter" in
        let* row_number := py_getitem cell_ref "row_number" in
        Ret (PStr (py_str column_letter +:+ py_str row_number))
      else
        let* column_letter := py_getitem cell_ref "column_letter" in
        let* row_number := py_getitem cell_ref "row_number" in
        Ret (PStr ("'" +:+ py_str sheet_name +:+ "'!" +:+ py_str column_letter +:+ py_str row_number))
    else
    let* is_range := py_in "range" json_obj in
    if is_range then
      let* range_obj := py_getitem json_obj "components" in
      let* range_start := py_getitem range_obj "start" in
      let* range_end := py_getitem range_obj "end" in
      Ret (PStr (py_str range_start +:+ ":" +:+ py_str range_end))
    else
    let* is_expression := py_in "expression" json_obj in
    if is_expression then
      let* components := py_getitem json_obj "components" in
      let* items := py_iter components in
      let* rendered := map_outcome (json_to_string fuel') items in
      let* expression_parts := py_join " " rendered in
      Ret (PStr ("(" +:+ expression_parts +:+ ")"))
    else
    let* is_operator := py_in "operator" json_obj in
    if is_operator then py_getitem json_obj "operator"
    else
    let* is_constant := py_in "constant" json_obj in
    if is_constant then
      let* constant := py_getitem json_obj "constant" in
      Ret (PStr (py_str constant))
    else Ret PNone
  end.

(** [Parser.reconstructed_formula] needs [parse] and is defined below,
    with the classes at hand again. *)

(** The labels [get_all_keys_with_counts] counts when no single one is
    asked for. *)
Definition default_acceptable_keys : gset string :=
  {[ "function"; "arguments"; "expression"; "range"; "reference"; "constant"; "operator" ]}.

(** [acceptable_keys] after [if label: acceptable_keys = {label}]; an empty
    label is false and leaves the default set. *)
Definition acceptable_keys (label : option string) : gset string :=
  match label with
  | Some l => if truthy (PStr l) then {[ l ]} else default_acceptable_keys
  | None => default_acceptable_keys
  end.

(** [if key in acceptable_keys: keys_count[key] = keys_count.get(key, 0) + 1] *)
Definition count_key (acceptable : gset string) (key : string)
    (keys_count : gmap string nat) : gmap string nat :=
  if bool_decide (key ∈ acceptable)
  then <[ key := default 0 (keys_count !! key) + 1 ]> keys_count
  else keys_count.

(** The inner function [count_keys], called on dictionaries only. *)
Fixpoint count_keys (acceptable : gset string) (item : value)
    (keys_count : gmap string nat) : gmap string nat :=
  match item with
  | PDict entries =>
      foldl (fun keys_count kv =>
               match kv with
               | (key, value0) =>
                   let keys_count := count_key acceptable key keys_count in
                   match value0 with
                   | PDict _ => count_keys acceptable value0 keys_count
                   | PList items =>
                       foldl (fun keys_count sub_item =>
                                match sub_item with
                                | PDict _ => count_keys acceptable sub_item keys_count
                                | _ => keys_count
                                end) keys_count items
                   | _ => keys_count
                   end
               end) keys_count entries
  | _ => keys_count
  end.

(** [Parser.get_all_keys_with_counts] (a static method); [d.items()] needs
    [d] to be a dictionary. *)
Definition get_all_keys_with_counts (d : value) (keys_count : option (gmap string nat))
    (label : option string) : outcome (gmap string nat) :=
  let acceptable := acceptable_keys label in
  let keys_count := match keys_count with Some kc => kc | None => ∅ end in
  match d with
  | PDict _ => Ret (count_keys acceptable d keys_count)
  | _ => Raise AttributeError
  end.

Section Translate.

Context {FunctionC : FunctionClass} {RangeC : RangeClass}
        {ReferenceC : ReferenceClass} {ConstantC : ConstantClass}
        {ExpressionC : ExpressionClass}.

(** [Parser.reconstructed_formula] (a property) *)
Definition reconstructed_formula (fuel : nat) (self : parser) : outcome string :=
  let* parsed_formula := parse fuel self in
  let* text := json_to_string fuel parsed_formula in
  Ret ("=" +:+ py_str text).

(** What [reconstruct_expression] can return: an instance of one of the
    classes, or the dictionary it was given. *)
Inductive instance : Type :=
  | IExpression (o : expression_obj)
  | IRange (o : range_obj)
  | IReference (o : reference_obj)
  | IFunction (o : function_obj)
  | IData (data : value).

Definition instance_str (i : instance) : string :=
  match i with
  | IExpression o => Expression_str o
  | IRange o => Range_str o
  | IReference o => Reference_str o
  | IFunction o => Function_str o
  | IData data => py_str data
  end.

(** [i.to_dict()]; a [dict] has no such method. *)
Definition instance_to_dict (i : instance) : outcome value :=
  match i with
  | IExpression o => Ret (Expression_to_dict o)
  | IRange o => Ret (Range_to_dict o)
  | IReference o => Ret (Reference_to_dict o)
  | IFunction o => Ret (Function_to_dict o)
  | IData _ => Raise AttributeError
  end.

(** [object_name_map], in the order it is written; each class with its
    [from_dict] when [hasattr(class_type, 'from_dict')]. [Reference] has
    one: [update_reference] calls it outright. *)
Definition object_name_map : list (string * option (value -> outcome instance)) :=
  [ ("expression",
     option_map (fun f v => let* o := f v in Ret (IExpression o)) Expression_from_dict);
    ("range",
     option_map (fun f v => let* o := f v in Ret (IRange o)) Range_from_dict);
    ("reference",
     Some (fun v => let* o := Reference_from_dict v in Ret (IReference o))) ].

Definition in_object_name_map (key : string) : bool :=
  existsb (fun kc => String.eqb key (fst kc)) object_name_map.

Section Shifted.

Variables col_shift row_shift : Z.

(** [update_reference] *)
Definition update_reference (ref_dict : value) : outcome value :=
  let* ref_obj := Reference_from_dict (PDict [("components", ref_dict)]) in
  let ref_obj :=
    Reference_update_column_number ref_obj (Reference_column_number ref_obj + col_shift)%Z in
  let ref_obj :=
    Reference_update_row_number ref_obj (Reference_row_number ref_obj + row_shift)%Z in
  Ret (Reference_to_dict ref_obj).

(** [reconstruct_expression], on the entries of the dictionary [data] *)
Definition reconstruct_expression (data : list (string * value)) : outcome instance :=
  (fix loop (classes : list (string * option (value -> outcome instance))) :=
     match classes with
     | (key, class_from_dict) :: classes' =>
         match dict_get key data, class_from_dict with
         | Some v, Some from_dict => from_dict (PDict [("components", v)])
         | _, _ => loop classes'
         end
     | [] =>
         if dict_has "function" data then
           let* o := Function_from_dict (PDict data) in Ret (IFunction o)
         else Ret (IData (PDict data))
     end) object_name_map.

(** [data['components'] = c] inside the loop over [data.items()]: when the
    key is new the dictionary grows, and the loop raises as it asks for its
    next item. *)
Definition set_components (c : value) (data : list (string * value))
    : outcome (list (string * value)) :=
  if dict_has "components" data then Ret (dict_set "components" c data)
  else Raise RuntimeError.

(** One turn of the loop [for key, value in data.items()] of
    [recurse_translate]; [recurse] is [recurse_translate] itself. *)
Definition translate_item (recurse : value -> outcome value) (key : string)
    (value0 : value) (data : list (string * value)) : outcome (list (string * value)) :=
  match value0 with
  | PDict _ | PList _ =>
      let* translated := recurse value0 in
      Ret (dict_set key translated data)
  | _ =>
      if in_object_name_map key then
        let* reconstruction := reconstruct_expression [(key, value0)] in
        let data := dict_set key (PStr (instance_str reconstruction)) data in
        let* as_dict := instance_to_dict reconstruction in
        let* components := py_getitem as_dict "components" in
        set_components components data
      else if String.eqb key "function" then
        let* reconstruction := Function_from_dict (PDict data) in
        let data := dict_set key (PStr (Function_str reconstruction)) data in
        let* components := py_getitem (Function_to_dict reconstruction) "components" in
        set_components components data
      else Ret data
  end.

(** The loop itself: the items are read from the dictionary as it is when
    the loop reaches them, the [i]-th one at the [i]-th turn. *)
Fixpoint translate_items (recurse : value -> outcome value) (turns i : nat)
    (data : list (string * value)) : outcome (list (string * value)) :=
  match turns with
  | 0 => Ret data
  | S turns' =>
      match data !! i with
      | None => Ret data
      | Some (key, value0) =>
          let* data' := translate_item recurse key value0 data in
          translate_items recurse turns' (S i) data'
      end
  end.

(** [recurse_translate] *)
Fixpoint recurse_translate (fuel : nat) (data : value) : outcome value :=
  match fuel with
  | 0 => OutOfFuel
  | S fuel' =>
    let* is_operator := py_in "operator" data in
    let* is_terminal := if is_operator then Ret true else py_in "constant" data in
    if is_terminal then Ret data
    else
      match data with
      | PDict entries =>
          if dict_has "reference" entries then
            let* components := py_getitem data "components" in
            let* updated_dict := update_reference components in
            let* updated_components := py_getitem updated_dict "components" in
            let* updated_ref :=
              Reference_from_dict (PDict [("components", updated_components)]) in
            let entries := dict_set "reference" (PStr (Reference_str updated_ref)) entries in
            let* components' := py_getitem (Reference_to_dict updated_ref) "components" in
            Ret (PDict (dict_set "components" components' entries))
          else
            let* entries' :=
              translate_items (recurse_translate fuel') (length entries) 0 entries in
            Ret (PDict entries')
      | PList items =>
          let* items' := map_outcome (recurse_translate fuel') items in
          Ret (PList items')
      | _ => Ret data
      end
  end.

End Shifted.

(** [Parser.translate]: the translated tree is stored in the attribute
    [parsed_formula] and the parser itself is returned. *)
Definition translate (fuel : nat) (self : parser) (from_cell to_cell : string)
    : outcome parser :=
  let* from_ref := Reference_new from_cell in
  let* to_ref := Reference_new to_cell in
  let col_shift := (Reference_column_number to_ref - Reference_column_number from_ref)%Z in
  let row_shift := (Reference_row_number to_ref - Reference_row_number from_ref)%Z in
  let* parsed := parse fuel self in
  let* translated := recurse_translate col_shift row_shift fuel parsed in
  Ret {| formula := formula self;
         full_formula := full_formula self;
         parsed_formula := Some translated |}.

End Translate.

End Parser.

(* ===================================================================== *)
(** ** The imported classes, as the specification describes them

    The five modules [parser.py] imports are modelled here from the
    specification (sections 3 and 4.2 to 4.6), to have instances of the
    class interfaces at which the parser can be run on formula text. *)
(* ===================================================================== *)

Module SpecModel.

Definition is_upper (c : ascii) : bool :=
  let n := nat_of_ascii c in (65 <=? n) && (n <=? 90).
Definition is_lower (c : ascii) : bool :=
  let n := nat_of_ascii c in (97 <=? n) && (n <=? 122).
Definition is_letter (c : ascii) : bool := is_upper c || is_lower c.
Definition is_digit (c : ascii) : bool :=
  let n := nat_of_ascii c in (48 <=? n) && (n <=? 57).
Definition to_upper (c : ascii) : ascii :=
  if is_lower c then ascii_of_nat (nat_of_ascii c - 32) else c.

Fixpoint all_chars (p : ascii -> bool) (s : string) : bool :=
  match s with
  | EmptyString => true
  | String c s' => p c && all_chars p s'
  end.

(** The longest prefix of [s] whose characters satisfy [p], and the rest. *)
Fixpoint span (p : ascii -> bool) (s : string) : string * string :=
  match s with
  | String c s' =>
      if p c then let (a, b) := span p s' in (String c a, b) else (EmptyString, s)
  | EmptyString => (EmptyString, EmptyString)
  end.

Definition snoc (s : string) (c : ascii) : string := s +:+ String c "".

Definition nonempty (s : string) : bool := negb (String.eqb s "").

(* --------------------------------------------------------------------- *)
(** *** Expression *)

(** Modelled from the spec: the module [Models/expression.py] is missing;
    the fixed operator set of section 4.6, one character per operator as
    section 2 has the splitter produce single-character operator tokens. *)
Definition operators : list string := ["+"; "-"; "*"; "/"; "^"; "&"; "="; "<"; ">"].

(** Modelled from the spec: membership in the operator set of the missing
    module [Models/expression.py]. *)
Definition is_operator_char (c : ascii) : bool :=
  existsb (String.eqb (String c "")) operators.

(** Modelled from the spec: [Expression.has_balanced_parentheses] of the
    missing module [Models/expression.py] (section 4.6, section 6: the
    parentheses must balance): no closing parenthesis comes before its
    opening one and none is left open. *)
Fixpoint balanced_from (depth : nat) (s : string) : bool :=
  match s with
  | EmptyString => depth =? 0
  | String c s' =>
      if Ascii.eqb c "(" then balanced_from (S depth) s'
      else if Ascii.eqb c ")" then
        match depth with
        | 0 => false
        | S d => balanced_from d s'
        end
      else balanced_from depth s'
  end.

(** Modelled from the spec: [Expression.has_balanced_parentheses] of the
    missing module [Models/expression.py], on the whole text. *)
Definition has_balanced_parentheses (s : string) : bool := balanced_from 0 s.

(** Modelled from the spec: the test, shared by the missing modules
    [Models/function.py] and [Models/expression.py], that the text after an
    opening parenthesis closes that parenthesis with its last character and
    not before (section 4.1 rule 1: the pattern spans the whole text). *)
Fixpoint closes_at_end (depth : nat) (s : string) : bool :=
  match s with
  | EmptyString => false
  | String c s' =>
      if Ascii.eqb c "(" then closes_at_end (S depth) s'
      else if Ascii.eqb c ")" then
        match depth with
        | 0 => String.eqb s' ""
        | S d => closes_at_end d s'
        end
      else closes_at_end depth s'
  end.

(** Modelled from the spec: a parenthesized group of the missing module
    [Models/expression.py] (section 4.6): one pair of parentheses encloses
    the whole text. *)
Definition is_group (s : string) : bool :=
  match s with
  | String c s' => Ascii.eqb c "(" && closes_at_end 0 s'
  | EmptyString => false
  end.

(** [s[:-1]] *)
Fixpoint drop_last (s : string) : string :=
  match s with
  | EmptyString => EmptyString
  | String c EmptyString => EmptyString
  | String c s' => String c (drop_last s')
  end.

(** Modelled from the spec: the split of the missing module
    [Models/expression.py] (sections 2 and 4.1 rule 5, 4.6): at every
    operator at parenthesis depth 0 and outside a quoted literal, keeping
    the order; [cur] is the operand read so far. *)
Fixpoint split_operators (depth : nat) (quoted : bool) (cur : string) (s : string)
    : list string :=
  match s with
  | EmptyString => [cur]
  | String c s' =>
      if quoted then split_operators depth (negb (Ascii.eqb c dquote)) (snoc cur c) s'
      else if Ascii.eqb c dquote then split_operators depth true (snoc cur c) s'
      else if Ascii.eqb c "(" then split_operators (S depth) false (snoc cur c) s'
      else if Ascii.eqb c ")" then split_operators (pred depth) false (snoc cur c) s'
      else if (depth =? 0) && is_operator_char c then
        cur :: String c "" :: split_operators 0 false "" s'
      else split_operators depth false (snoc cur c) s'
  end.

(** Modelled from the spec: the text has an operator at depth 0 (section
    4.6), in the missing module [Models/expression.py]. *)
Definition has_top_level_operator (s : string) : bool :=
  1 <? length (split_operators 0 false "" s).

(** Modelled from the spec: [Expression.is_valid_expression] of the missing
    module [Models/expression.py] (section 4.6): the text has a top-level
    operator or is a parenthesized group; a lone operator character is left
    to rule 6 of section 4.1. *)
Definition is_valid_expression (s : string) : bool :=
  has_balanced_parentheses s && (1 <? String.length s)
  && (is_group s || has_top_level_operator s).

(** Modelled from the spec: the attribute [expression] of the missing class
    [Expression] (section 2): one layer of enclosing parentheses is
    stripped, then the text is split into operands and operator tokens. *)
Definition expression_parts (s : string) : list string :=
  let inner := if is_group s then drop_last (drop_first s) else s in
  filter (fun part => nonempty part = true) (map strip (split_operators 0 false "" inner)).

Record expression_rec : Type := {
  expression_text : string;
  expression : list string
}.

(** Modelled from the spec: the class [Expression] of the missing module
    [Models/expression.py]. Section 1 lists the classes with a
    [from_structured] and [Expression] is not one of them, so it has no
    [from_dict]. *)
#[export] Instance ExpressionModel : ExpressionClass := {|
  expression_obj := expression_rec;
  Expression_operators := operators;
  Expression_has_balanced_parentheses := has_balanced_parentheses;
  Expression_is_valid_expression := is_valid_expression;
  Expression_new := fun s =>
    Ret {| expression_text := s; expression := expression_parts s |};
  Expression_expression := fun o => map PStr (expression o);
  Expression_str := expression_text;
  Expression_to_dict := fun o =>
    PDict [("expression", PStr (expression_text o));
           ("components", PList (map PStr (expression o)))];
  Expression_from_dict := None
|}.

(* --------------------------------------------------------------------- *)
(** *** Reference *)

Record reference_rec : Type := {
  sheet_name : option string;
  column_letter : string;
  row_number : Z;
  column_number : Z
}.

(** Modelled from the spec: the column conversion of the missing module
    [Models/reference.py] (section 3, section 4.3): base 26 with no zero
    digit, A=1 ... Z=26, AA=27. *)
Fixpoint letters_to_number_from (acc : Z) (letters : string) : Z :=
  match letters with
  | EmptyString => acc
  | String c s' =>
      letters_to_number_from (acc * 26 + (Z.of_nat (nat_of_ascii (to_upper c)) - 64))%Z s'
  end.

Definition letters_to_number (letters : string) : Z := letters_to_number_from 0 letters.

Fixpoint number_to_letters_from (fuel : nat) (n : Z) (acc : string) : string :=
  match fuel with
  | 0 => acc
  | S fuel' =>
      if (n <=? 0)%Z then acc
      else
        number_to_letters_from fuel' ((n - 1) / 26)%Z
          (String (ascii_of_nat (65 + Z.to_nat ((n - 1) mod 26))) acc)
  end.

(** Modelled from the spec: the letters of a column number in the missing
    module [Models/reference.py] (section 4.3), the inverse of
    [letters_to_number] on the positive numbers; no letters for a number
    below 1. *)
Definition number_to_letters (n : Z) : string :=
  number_to_letters_from (Z.to_nat n) n "".

(** The number a run of decimal digits writes. *)
Definition digits_to_Z (digits : string) : Z :=
  fold_left (fun acc c => (acc * 10 + (Z.of_nat (nat_of_ascii c) - 48))%Z)
            (list_ascii_of_string digits) 0%Z.

(** The text up to the first [c], and the text after it. *)
Fixpoint split_at_char (c : ascii) (s : string) : option (string * string) :=
  match s with
  | EmptyString => None
  | String a s' =>
      if Ascii.eqb a c then Some (EmptyString, s')
      else match split_at_char c s' with
           | Some (l, r) => Some (String a l, r)
           | None => None
           end
  end.

(** Modelled from the spec: the sheet prefix of the missing module
    [Models/reference.py] (section 4.3): an optional quoted sheet name
    followed by [!] in front, and the rest of the text. *)
Definition split_sheet (s : string) : option (option string * string) :=
  match s with
  | String q s' =>
      if Ascii.eqb q squote then
        match split_at_char squote s' with
        | Some (sheet, String b rest) =>
            if Ascii.eqb b "!" then Some (Some sheet, rest) else None
        | _ => None
        end
      else Some (None, s)
  | EmptyString => Some (None, s)
  end.

(** Modelled from the spec: the parse of a cell reference in the missing
    module [Models/reference.py] (section 4.1 rule 3, section 4.3): an
    optional quoted sheet name followed by [!], one or more letters, then
    one or more digits up to the end. *)
Definition parse_reference (s : string) : option reference_rec :=
  match split_sheet s with
  | Some (sheet, cell) =>
      let (letters, digits) := span is_letter cell in
      if nonempty letters && nonempty digits && all_chars is_digit digits then
        Some {| sheet_name := sheet;
                column_letter := letters;
                row_number := digits_to_Z digits;
                column_number := letters_to_number letters |}
      else None
  | None => None
  end.

(** Modelled from the spec: [Reference.is_valid_reference] of the missing
    module [Models/reference.py]. *)
Definition is_valid_reference (s : string) : bool :=
  match parse_reference s with Some _ => true | None => false end.

(** Modelled from the spec: the string form of a [Reference] (section 4.7):
    ['sheet'!] in front when there is a sheet name, then column letters and
    row number. *)
Definition reference_str (r : reference_rec) : string :=
  match sheet_name r with
  | Some sheet =>
      if nonempty sheet
      then "'" +:+ sheet +:+ "'!" +:+ column_letter r +:+ string_of_Z (row_number r)
      else column_letter r +:+ string_of_Z (row_number r)
  | None => column_letter r +:+ string_of_Z (row_number r)
  end.

(** The sheet name as the structured form holds it: [None] when absent. *)
Definition sheet_value (sheet : option string) : value :=
  match sheet with Some s => PStr s | None => PNone end.

(** Modelled from the spec: the components of [Reference.to_dict] of the
    missing module [Models/reference.py], the four fields of section 3 laid
    out as the expected output at the end of [parser.py] has them. *)
Definition reference_components (r : reference_rec) : value :=
  PDict [("column_letter", PStr (column_letter r));
         ("row_number", PInt (row_number r));
         ("sheet_name", sheet_value (sheet_name r));
         ("column_number", PInt (column_number r))].

(** Modelled from the spec: [Reference.to_dict] of the missing module
    [Models/reference.py]: the kind tag with the string form, then the
    components, as the expected output at the end of [parser.py] has it. *)
Definition reference_to_dict (r : reference_rec) : value :=
  PDict [("reference", PStr (reference_str r)); ("components", reference_components r)].

(** Modelled from the spec: [Reference.from_dict] of the missing module
    [Models/reference.py] (section 4.3): the four fields are read back from
    the components, the sheet name possibly absent. *)
Definition reference_from_dict (data : value) : outcome reference_rec :=
  let* components := py_getitem data "components" in
  let* letters := py_getitem components "column_letter" in
  let* row := py_getitem components "row_number" in
  let* sheet := py_getitem components "sheet_name" in
  let* column := py_getitem components "column_number" in
  match letters, row, column with
  | PStr l, PInt r, PInt c =>
      match sheet with
      | PNone => Ret {| sheet_name := None; column_letter := l;
                        row_number := r; column_number := c |}
      | PStr s => Ret {| sheet_name := Some s; column_letter := l;
                         row_number := r; column_number := c |}
      | _ => Raise TypeError
      end
  | _, _, _ => Raise TypeError
  end.

(** Modelled from the spec: [update_column_number] and [update_row_number]
    of the missing module [Models/reference.py] (section 4.3): the number
    and the letters change together, the sheet name is left alone. *)
Definition update_column_number (r : reference_rec) (n : Z) : reference_rec :=
  {| sheet_name := sheet_name r;
     column_letter := number_to_letters n;
     row_number := row_number r;
     column_number := n |}.

(** Modelled from the spec: [update_row_number] of the missing module
    [Models/reference.py] (section 4.3). *)
Definition update_row_number (r : reference_rec) (n : Z) : reference_rec :=
  {| sheet_name := sheet_name r;
     column_letter := column_letter r;
     row_number := n;
     column_number := column_number r |}.

(** Modelled from the spec: the class [Reference] of the missing module
    [Models/reference.py]; a text that is no cell reference is refused. *)
#[export] Instance ReferenceModel : ReferenceClass := {|
  reference_obj := reference_rec;
  Reference_is_valid_reference := is_valid_reference;
  Reference_new := fun s =>
    match parse_reference s with
    | Some r => Ret r
    | None => Raise (ValueError "Invalid reference")
    end;
  Reference_column_number := column_number;
  Reference_row_number := row_number;
  Reference_update_column_number := update_column_number;
  Reference_update_row_number := update_row_number;
  Reference_str := reference_str;
  Reference_to_dict := reference_to_dict;
  Reference_from_dict := reference_from_dict
|}.

(* --------------------------------------------------------------------- *)
(** *** Range *)

Record range_rec : Type := {
  range_start : reference_rec;
  range_end : reference_rec
}.

(** Modelled from the spec: the top-level [:] of the missing module
    [Models/range.py] (section 4.4): the text before the first [:] outside a
    quoted sheet name, and the text after it. *)
Fixpoint split_colon (quoted : bool) (s : string) : option (string * string) :=
  match s with
  | EmptyString => None
  | String c s' =>
      if negb quoted && Ascii.eqb c ":" then Some (EmptyString, s')
      else
        match split_colon (if Ascii.eqb c squote then negb quoted else quoted) s' with
        | Some (l, r) => Some (String c l, r)
        | None => None
        end
  end.

(** Modelled from the spec: the parse of the missing module
    [Models/range.py] (section 4.1 rule 2, section 4.4): one [:] between
    two texts that are each a valid reference, with no check across the
    two endpoints. *)
Definition parse_range (s : string) : option range_rec :=
  match split_colon false s with
  | Some (l, r) =>
      match parse_reference l, parse_reference r with
      | Some a, Some b => Some {| range_start := a; range_end := b |}
      | _, _ => None
      end
  | None => None
  end.

(** Modelled from the spec: the string form [start:end] of the missing
    class [Range] (section 4.7). *)
Definition range_str (r : range_rec) : string :=
  reference_str (range_start r) +:+ ":" +:+ reference_str (range_end r).

(** Modelled from the spec: the structured form of a range (section 3):
    both endpoints are full Reference nodes. *)
Definition range_to_dict (r : range_rec) : value :=
  PDict [("range", PStr (range_str r));
         ("components", PDict [("start", reference_to_dict (range_start r));
                               ("end", reference_to_dict (range_end r))])].

(** Modelled from the spec: [Range.from_dict] of the missing module
    [Models/range.py] (section 1): the inverse of the structured form. *)
Definition range_from_dict (data : value) : outcome range_rec :=
  let* components := py_getitem data "components" in
  let* s := py_getitem components "start" in
  let* e := py_getitem components "end" in
  let* a := reference_from_dict s in
  let* b := reference_from_dict e in
  Ret {| range_start := a; range_end := b |}.

(** Modelled from the spec: the class [Range] of the missing module
    [Models/range.py]. *)
#[export] Instance RangeModel : RangeClass := {|
  range_obj := range_rec;
  Range_is_valid_range := fun s =>
    match parse_range s with Some _ => true | None => false end;
  Range_new := fun s =>
    match parse_range s with
    | Some r => Ret r
    | None => Raise (ValueError "Invalid range")
    end;
  Range_str := range_str;
  Range_to_dict := range_to_dict;
  Range_from_dict := Some range_from_dict
|}.

(* --------------------------------------------------------------------- *)
(** *** Constant *)

Fixpoint strip_leading_zeros (s : string) : string :=
  match s with
  | String c (String _ _ as s') => if Ascii.eqb c "0" then strip_leading_zeros s' else s
  | _ => s
  end.

Fixpoint drop_trailing_zeros (s : string) : string :=
  match s with
  | EmptyString => EmptyString
  | String c s' =>
      match drop_trailing_zeros s' with
      | EmptyString => if Ascii.eqb c "0" then EmptyString else String c EmptyString
      | r => String c r
      end
  end.

Definition strip_trailing_zeros (s : string) : string :=
  match drop_trailing_zeros s with
  | EmptyString => "0"
  | r => r
  end.

Definition upper (s : string) : string :=
  string_of_list_ascii (map to_upper (list_ascii_of_string s)).

(** Modelled from the spec: a quoted text literal of the missing module
    [Models/constant.py] (section 4.5): double quotes around a text that
    has none. *)
Definition is_quoted (s : string) : bool :=
  match s with
  | String q s' =>
      Ascii.eqb q dquote && (0 <? String.length s')
      && String.eqb (String.substring (String.length s' - 1) 1 s') (String dquote "")
      && negb (contains (String dquote "") (drop_last s'))
  | EmptyString => false
  end.

(** Modelled from the spec: the literals of the missing module
    [Models/constant.py] (section 4.1 rule 4, section 4.5): an integer, a
    decimal, a quoted text or a boolean keyword, each with a value of its
    own type. A decimal is given the text Python prints for a float of
    moderate size. *)
Definition parse_constant (s : string) : option value :=
  let (whole, rest) := span is_digit s in
  if nonempty whole && String.eqb rest "" then Some (PInt (digits_to_Z whole))
  else
    match rest with
    | String dot frac =>
        if nonempty whole && Ascii.eqb dot "." && nonempty frac && all_chars is_digit frac
        then Some (PFloat (strip_leading_zeros whole +:+ "." +:+ strip_trailing_zeros frac))
        else if is_quoted s then Some (PStr (drop_last (drop_first s)))
        else if String.eqb (upper s) "TRUE" then Some (PBool true)
        else if String.eqb (upper s) "FALSE" then Some (PBool false)
        else None
    | EmptyString => None
    end.

(** Modelled from the spec: the class [Constant] of the missing module
    [Models/constant.py]; its structured form holds the typed value under
    the key [constant], where [json_to_string] reads it. *)
#[export] Instance ConstantModel : ConstantClass := {|
  constant_obj := value;
  Constant_is_valid_constant := fun s =>
    match parse_constant s with Some _ => true | None => false end;
  Constant_new := fun s =>
    match parse_constant s with
    | Some v => Ret v
    | None => Raise (ValueError "Invalid constant")
    end;
  Constant_to_dict := fun v => PDict [("constant", v)]
|}.

(* --------------------------------------------------------------------- *)
(** *** Function *)

Definition is_name_char (c : ascii) : bool :=
  is_letter c || is_digit c || Ascii.eqb c "_" || Ascii.eqb c ".".

(** Modelled from the spec: the identifier in front of a call in the
    missing module [Models/function.py] (section 4.1 rule 1). *)
Definition is_name (s : string) : bool :=
  match s with
  | String c _ => (is_letter c || Ascii.eqb c "_") && all_chars is_name_char s
  | EmptyString => false
  end.

(** Modelled from the spec: the pattern of the missing module
    [Models/function.py] (section 4.1 rule 1, section 4.2): an identifier,
    an opening parenthesis, and the closing parenthesis that matches it as
    the last character. Gives the name and the text between the two. *)
Definition parse_function (s : string) : option (string * string) :=
  match split_at_char "(" s with
  | Some (name, rest) =>
      if is_name name && closes_at_end 0 rest then Some (name, drop_last rest) else None
  | None => None
  end.

(** Modelled from the spec: [Function.is_function_string] of the missing
    module [Models/function.py] (section 4.2). *)
Definition is_function_string (s : string) : bool :=
  match parse_function s with Some _ => true | None => false end.

(** Modelled from the spec: the split of the missing module
    [Models/function.py] (section 4.2) at the commas at parenthesis depth
    0; [cur] is the argument read so far. *)
Fixpoint split_commas (depth : nat) (cur : string) (s : string) : list string :=
  match s with
  | EmptyString => [cur]
  | String c s' =>
      if Ascii.eqb c "(" then split_commas (S depth) (snoc cur c) s'
      else if Ascii.eqb c ")" then split_commas (pred depth) (snoc cur c) s'
      else if (depth =? 0) && Ascii.eqb c "," then cur :: split_commas 0 "" s'
      else split_commas depth (snoc cur c) s'
  end.

(** Modelled from the spec: [parse_arguments] of the missing module
    [Models/function.py] (section 4.2): the text between the outer
    parentheses split at its top-level commas, each argument trimmed; an
    empty interior has no argument. *)
Definition arguments_of (interior : string) : list string :=
  if String.eqb (strip interior) "" then []
  else map strip (split_commas 0 "" interior).

Record function_rec : Type := {
  function_name : string;
  function_interior : string;
  function_args : list value
}.

(** Modelled from the spec: the string an argument of the missing class
    [Function] is known by: the raw text, or the cached string a built node
    carries under its kind tag (section 3). *)
Definition argument_str (arg : value) : string :=
  match arg with
  | PDict ((_, cached) :: _) => py_str cached
  | _ => py_str arg
  end.

(** Modelled from the spec: the string form [name(arg1, arg2, ...)] of the
    missing class [Function] (section 4.1 rule 1). *)
Definition function_str (f : function_rec) : string :=
  function_name f +:+ "(" +:+ join ", " (map argument_str (function_args f)) +:+ ")".

(** Modelled from the spec: [Function.to_dict] of the missing module
    [Models/function.py], laid out as [parse_expression] lays a function
    call out. *)
Definition function_to_dict (f : function_rec) : value :=
  PDict [("function", PStr (function_str f));
         ("components", PDict [("name", PStr (function_name f));
                               ("arguments", PList (function_args f))])].

(** Modelled from the spec: [Function.from_dict] of the missing module
    [Models/function.py] (section 1): the inverse of the structured form. *)
Definition function_from_dict (data : value) : outcome function_rec :=
  let* components := py_getitem data "components" in
  let* name := py_getitem components "name" in
  let* arguments := py_getitem components "arguments" in
  match name, arguments with
  | PStr n, PList args =>
      Ret {| function_name := n; function_interior := ""; function_args := args |}
  | _, _ => Raise TypeError
  end.

(** Modelled from the spec: the class [Function] of the missing module
    [Models/function.py]. *)
#[export] Instance FunctionModel : FunctionClass := {|
  function_obj := function_rec;
  Function_is_function_string := is_function_string;
  Function_new := fun s =>
    match parse_function s with
    | Some (name, interior) =>
        Ret {| function_name := name; function_interior := interior; function_args := [] |}
    | None => Raise (ValueError "Invalid function")
    end;
  Function_parse_arguments := fun f =>
    {| function_name := function_name f;
       function_interior := function_interior f;
       function_args := map PStr (arguments_of (function_interior f)) |};
  Function_name := fun f => PStr (function_name f);
  Function_args := function_args;
  Function_str := function_str;
  Function_from_dict := function_from_dict;
  Function_to_dict := function_to_dict
|}.

End SpecModel.

(* ===================================================================== *)
(** ** The tree of tagged nodes

    The node kinds of the data model, to state what the parser's functions
    do on a tree. [to_value] lays a node out as the dictionary the parser
    works on: the kind tag with the cached string first, then the
    components. The cached string and the fields of a leaf are arbitrary
    Python values here. *)
(* ===================================================================== *)

#[warnings="-register-all"]
Inductive node : Type :=
  | FunctionCall (cached : value) (name : value) (arguments : list node)
  | RangeNode (cached : value) (range_start range_end : value)
  | ReferenceNode (cached : value) (sheet_name column_letter row_number column_number : value)
  | ConstantNode (literal : value)
  | ExpressionNode (cached : value) (parts : list node)
  | OperatorNode (symbol : string).

Fixpoint to_value (n : node) : value :=
  match n with
  | FunctionCall cached name arguments =>
      PDict [("function", cached);
             ("components", PDict [("name", name);
                                   ("arguments", PList (map to_value arguments))])]
  | RangeNode cached range_start range_end =>
      PDict [("range", cached);
             ("components", PDict [("start", range_start); ("end", range_end)])]
  | ReferenceNode cached sheet_name column_letter row_number column_number =>
      PDict [("reference", cached);
             ("components", PDict [("column_letter", column_letter);
                                   ("row_number", row_number);
                                   ("sheet_name", sheet_name);
                                   ("column_number", column_number)])]
  | ConstantNode literal => PDict [("constant", literal)]
  | ExpressionNode cached parts =>
      PDict [("expression", cached); ("components", PList (map to_value parts))]
  | OperatorNode symbol => PDict [("operator", PStr symbol)]
  end.

(** The text of a node as section 4.7 of the specification words it, kind
    by kind; the cached strings play no part in it. *)
Fixpoint render (n : node) : string :=
  match n with
  | FunctionCall _ name arguments =>
      py_str name +:+ "(" +:+ join ", " (map render arguments) +:+ ")"
  | RangeNode _ range_start range_end => py_str range_start +:+ ":" +:+ py_str range_end
  | ReferenceNode _ sheet_name column_letter row_number _ =>
      if truthy sheet_name
      then "'" +:+ py_str sheet_name +:+ "'!" +:+ py_str column_letter +:+ py_str row_number
      else py_str column_letter +:+ py_str row_number
  | ConstantNode literal => py_str literal
  | ExpressionNode _ parts => "(" +:+ join " " (map render parts) +:+ ")"
  | OperatorNode symbol => symbol
  end.

(** The text of a node with no parentheses around its expressions:
    arguments joined by a comma and a space, parts by one space. *)
Fixpoint flat (n : node) : string :=
  match n with
  | FunctionCall _ name arguments =>
      py_str name +:+ "(" +:+ join ", " (map flat arguments) +:+ ")"
  | ExpressionNode _ parts => join " " (map flat parts)
  | _ => render n
  end.

(** Nesting depth of a node: the recursion depth its traversal needs. *)
Fixpoint depth (n : node) : nat :=
  match n with
  | FunctionCall _ _ arguments => S (foldr Nat.max 0 (map depth arguments))
  | ExpressionNode _ parts => S (foldr Nat.max 0 (map depth parts))
  | _ => 0
  end.

Definition all_nil {A : Type} (P : A -> Prop) : Forall P [] :=
  ltac:(constructor).

Definition all_cons {A : Type} (P : A -> Prop) (x : A) (l : list A)
    (Hx : P x) (Hl : Forall P l) : Forall P (x :: l) :=
  ltac:(constructor; assumption).

Section NodeInduction.

Variable P : node -> Prop.
Hypothesis function_case : forall cached name arguments,
  Forall P arguments -> P (FunctionCall cached name arguments).
Hypothesis range_case : forall cached s e, P (RangeNode cached s e).
Hypothesis reference_case : forall cached sheet col row num,
  P (ReferenceNode cached sheet col row num).
Hypothesis constant_case : forall literal, P (ConstantNode literal).
Hypothesis expression_case : forall cached parts,
  Forall P parts -> P (ExpressionNode cached parts).
Hypothesis operator_case : forall symbol, P (OperatorNode symbol).

Fixpoint node_induction (n : node) : P n :=
  let all :=
    fix all (l : list node) : Forall P l :=
      match l with
      | [] => all_nil P
      | x :: l' => all_cons P x l' (node_induction x) (all l')
      end in
  match n with
  | FunctionCall cached name arguments => function_case cached name arguments (all arguments)
  | RangeNode cached s e => range_case cached s e
  | ReferenceNode cached sheet col row num => reference_case cached sheet col row num
  | ConstantNode literal => constant_case literal
  | ExpressionNode cached parts => expression_case cached parts (all parts)
  | OperatorNode symbol => operator_case symbol
  end.

End NodeInduction.

Section ValueInduction.

Variable P : value -> Prop.
Hypothesis none_case : P PNone.
Hypothesis bool_case : forall b, P (PBool b).
Hypothesis int_case : forall z, P (PInt z).
Hypothesis float_case : forall shown, P (PFloat shown).
Hypothesis str_case : forall s, P (PStr s).
Hypothesis list_case : forall items, Forall P items -> P (PList items).
Hypothesis dict_case : forall entries,
  Forall (fun kv => P (snd kv)) entries -> P (PDict entries).

Fixpoint value_induction (v : value) : P v :=
  match v with
  | PNone => none_case
  | PBool b => bool_case b
  | PInt z => int_case z
  | PFloat shown => float_case shown
  | PStr s => str_case s
  | PList items =>
      list_case items
        ((fix all (l : list value) : Forall P l :=
            match l with
            | [] => all_nil P
            | x :: l' => all_cons P x l' (value_induction x) (all l')
            end) items)
  | PDict entries =>
      dict_case entries
        ((fix all (l : list (string * value)) : Forall (fun kv => P (snd kv)) l :=
            match l with
            | [] => all_nil _
            | kv :: l' => all_cons _ kv l' (value_induction (snd kv)) (all l')
            end) entries)
  end.

End ValueInduction.

(* --------------------------------------------------------------------- *)
(** *** Counting kind tags *)

(** How often [key] is a key of a dictionary of the tree [v], through all
    its nested dictionaries and lists. *)
Fixpoint occurrences (key : string) (v : value) : nat :=
  match v with
  | PDict entries =>
      sum_list_with
        (fun kv => (if String.eqb key (fst kv) then 1 else 0) + occurrences key (snd kv))
        entries
  | PList items => sum_list_with (occurrences key) items
  | _ => 0
  end.

Definition is_list (v : value) : bool :=
  match v with PList _ => true | _ => false end.

(** The shape of a tree of nodes: a list holds nodes or plain values, never
    another list. *)
Fixpoint lists_hold_no_list (v : value) : bool :=
  match v with
  | PDict entries => forallb (fun kv => lists_hold_no_list (snd kv)) entries
  | PList items => forallb (fun x => negb (is_list x) && lists_hold_no_list x) items
  | _ => true
  end.

(** The seven kind tags, as a list. *)
Definition recognized_tags : list string :=
  ["function"; "arguments"; "expression"; "range"; "reference"; "constant"; "operator"].

(** The count [n] of a key as a dictionary of counts shows it: no entry for
    a key that never occurred. *)
Definition shown_count (n : nat) : option nat :=
  if n =? 0 then None else Some n.

(** A count of [n] more added to the entry [o] of a dictionary of counts. *)
Definition bump (n : nat) (o : option nat) : option nat :=
  if n =? 0 then o else Some (default 0 o + n).

Definition counted (acceptable : gset string) (k : string) (n : nat) (o : option nat)
    : option nat :=
  if bool_decide (k ∈ acceptable) then bump n o else o.

(** What one turn of the loop of [count_keys] does with the value of an
    item, after the key has been counted. *)
Definition visit (acceptable : gset string) (v : value) (keys_count : gmap string nat)
    : gmap string nat :=
  match v with
  | PDict _ => Parser.count_keys acceptable v keys_count
  | PList items =>
      foldl (fun keys_count sub_item =>
               match sub_item with
               | PDict _ => Parser.count_keys acceptable sub_item keys_count
               | _ => keys_count
               end) keys_count items
  | _ => keys_count
  end.

(* --------------------------------------------------------------------- *)
(** *** The classification rules *)

Inductive kind : Type :=
  | KFunction | KRange | KReference | KConstant | KExpression | KOperator.

(** The place of a rule in the order Function, Range, Reference, Constant,
    Expression, Operator. *)
Definition rank (k : kind) : nat :=
  match k with
  | KFunction => 0
  | KRange => 1
  | KReference => 2
  | KConstant => 3
  | KExpression => 4
  | KOperator => 5
  end.

Section Classification.

Context {FunctionC : FunctionClass} {RangeC : RangeClass}
        {ReferenceC : ReferenceClass} {ConstantC : ConstantClass}
        {ExpressionC : ExpressionClass}.

(** The predicate of each rule. *)
Definition accepts (k : kind) (expr : string) : bool :=
  match k with
  | KFunction => Function_is_function_string expr
  | KRange => Range_is_valid_range expr
  | KReference => Reference_is_valid_reference expr
  | KConstant => Constant_is_valid_constant expr
  | KExpression => Expression_is_valid_expression expr
  | KOperator => Parser.is_single_operator expr
  end.

(** The node each rule returns for the trimmed text [expr]; [fuel] is the
    budget left for classifying the arguments or parts. *)
Definition build (fuel : nat) (k : kind) (expr : string) : outcome value :=
  match k with
  | KFunction =>
      let* func0 := Function_new expr in
      let func := Function_parse_arguments func0 in
      let* arguments :=
        map_outcome (Parser.parse_expression fuel) (Function_args func) in
      Ret (PDict [("function", PStr (Function_str func));
                  ("components", PDict [("name", Function_name func);
                                        ("arguments", PList arguments)])])
  | KRange => let* range_obj := Range_new expr in Ret (Range_to_dict range_obj)
  | KReference => let* ref := Reference_new expr in Ret (Reference_to_dict ref)
  | KConstant => let* const := Constant_new expr in Ret (Constant_to_dict const)
  | KExpression =>
      let* expression_obj := Expression_new expr in
      let* components :=
        map_outcome (Parser.parse_expression fuel) (Expression_expression expression_obj) in
      Ret (PDict [("expression", PStr (Expression_str expression_obj));
                  ("components", PList components)])
  | KOperator => Ret (PDict [("operator", PStr expr)])
  end.

End Classification.

(* --------------------------------------------------------------------- *)
(** *** Errors and texts *)

(** The text [text] is part of what the exception [e] carries. *)
Definition carries_text (e : exn) (text : string) : bool :=
  match e with
  | ValueError msg => contains text msg
  | KeyError key => contains text key
  | _ => false
  end.

(** [s.replace("(", "").replace(")", "")] *)
Definition without_parentheses (s : string) : string :=
  remove_char ")" (remove_char "(" s).

(** A value is a node of one of the two terminal kinds. *)
Definition is_terminal (v : value) : bool :=
  match v with
  | PDict entries => dict_has "operator" entries || dict_has "constant" entries
  | _ => false
  end.

(* --------------------------------------------------------------------- *)
(** *** Translation of a tree, node by node *)

(** The trees whose translation is followed through below: function calls
    over references, constants and operators, with the fields of a
    reference of the types [Reference] gives them. *)
Fixpoint translatable (n : node) : bool :=
  match n with
  | FunctionCall (PStr _) (PStr _) arguments => forallb translatable arguments
  | ReferenceNode _ sheet (PStr _) (PInt _) (PInt _) =>
      match sheet with PNone | PStr _ => true | _ => false end
  | ConstantNode _ => true
  | OperatorNode _ => true
  | _ => false
  end.

(** The reference at column [column] and row [row] of the sheet [sheet], as
    a node. *)
Definition reference_node (sheet : option string) (column row : Z) : node :=
  let r := {| SpecModel.sheet_name := sheet;
              SpecModel.column_letter := SpecModel.number_to_letters column;
              SpecModel.row_number := row;
              SpecModel.column_number := column |} in
  ReferenceNode (PStr (SpecModel.reference_str r)) (SpecModel.sheet_value sheet)
                (PStr (SpecModel.number_to_letters column)) (PInt row) (PInt column).

Definition sheet_of (v : value) : option string :=
  match v with PStr s => Some s | _ => None end.

Definition int_of (v : value) : Z :=
  match v with PInt z => z | _ => 0%Z end.

(** Every reference of the tree moved by [col_shift] columns and
    [row_shift] rows. A function call keeps the cached string that
    [Function.from_dict] computes for it, which is the one of its arguments
    before they are moved. *)
Fixpoint shifted (col_shift row_shift : Z) (n : node) : node :=
  match n with
  | FunctionCall cached name arguments =>
      FunctionCall
        (PStr (py_str name +:+ "(" +:+
               join ", " (map (fun a => SpecModel.argument_str (to_value a)) arguments) +:+ ")"))
        name (map (shifted col_shift row_shift) arguments)
  | ReferenceNode _ sheet _ row column =>
      reference_node (sheet_of sheet) (int_of column + col_shift) (int_of row + row_shift)
  | _ => n
  end.

(** What it is for the value [v] to be the node of kind [k] for the text
    [expr]: the dictionary the parser lays out itself for a function call,
    an expression or an operator, and the structured form the class gives
    for a range, a reference or a constant. *)
Definition built_as {FunctionC : FunctionClass} {RangeC : RangeClass}
    {ReferenceC : ReferenceClass} {ConstantC : ConstantClass}
    {ExpressionC : ExpressionClass} (k : kind) (expr : string) (v : value) : Prop :=
  match k with
  | KFunction =>
      exists cached name arguments,
        v = PDict [("function", PStr cached);
                   ("components", PDict [("name", name); ("arguments", PList arguments)])]
  | KRange => exists o, Range_new expr = Ret o /\ v = Range_to_dict o
  | KReference => exists o, Reference_new expr = Ret o /\ v = Reference_to_dict o
  | KConstant => exists o, Constant_new expr = Ret o /\ v = Constant_to_dict o
  | KExpression =>
      exists cached parts,
        v = PDict [("expression", PStr cached); ("components", PList parts)]
  | KOperator => v = PDict [("operator", PStr expr)]
  end.

(* --------------------------------------------------------------------- *)
(** *** The formulas of the examples *)

Definition SUM_A1_B2 : parser :=
  {| formula := "SUM(A1, B2)";
     full_formula := "=SUM(A1, B2)";
     parsed_formula := None |}.

Definition SUM_A1_B2_unspaced : parser :=
  {| formula := "SUM(A1,B2)";
     full_formula := "=SUM(A1,B2)";
     parsed_formula := None |}.

Definition SUM_A1_MAX : parser :=
  {| formula := "SUM(A1, MAX(B1, C1 + D1))";
     full_formula := "=SUM(A1, MAX(B1, C1 + D1))";
     parsed_formula := None |}.

(** The formula the demonstration at the end of [parser.py] runs on. *)
Definition IF_AND_demo : parser :=
  {| formula := "IF(AND(A1 > 0, B1 < 0), SUM(PRODUCT(A1, B2, MAX(C1, C2)), 10), 100)";
     full_formula := "=IF(AND(A1 > 0, B1 < 0), SUM(PRODUCT(A1, B2, MAX(C1, C2)), 10), 100)";
     parsed_formula := None |}.

Definition cell (letters : string) (row : Z) : node :=
  ReferenceNode (PStr (letters +:+ string_of_Z row)) PNone (PStr letters) (PInt row)
                (PInt (SpecModel.letters_to_number letters)).

(** The tree of [SUM(A1, MAX(B1, C1 + D1))]. *)
Definition SUM_A1_MAX_tree : node :=
  FunctionCall (PStr "SUM(A1, MAX(B1, C1 + D1))") (PStr "SUM")
    [cell "A" 1;
     FunctionCall (PStr "MAX(B1, C1 + D1)") (PStr "MAX")
       [cell "B" 1;
        ExpressionNode (PStr "C1 + D1") [cell "C" 1; OperatorNode "+"; cell "D" 1]]].

(** The tree of [SUM(A1, B2)]. *)
Definition SUM_A1_B2_tree : node :=
  FunctionCall (PStr "SUM(A1, B2)") (PStr "SUM") [cell "A" 1; cell "B" 2].

(** The entries of the dictionary of a node. *)
Definition entries_of (v : value) : list (string * value) :=
  match v with PDict entries => entries | _ => [] end.

(* --------------------------------------------------------------------- *)
(** *** Trees classified again, and trees counted *)

(** No Expression node anywhere in the tree. *)
Fixpoint no_expression (n : node) : bool :=
  match n with
  | FunctionCall _ _ arguments => forallb no_expression arguments
  | ExpressionNode _ _ => false
  | _ => true
  end.

(** What [parse_expression] makes of a built tree: an Expression node
    becomes [None], wherever it stands among the arguments. *)
Fixpoint reclassified (n : node) : value :=
  match n with
  | FunctionCall cached name arguments =>
      PDict [("function", cached);
             ("components", PDict [("name", name);
                                   ("arguments", PList (map reclassified arguments))])]
  | ExpressionNode _ _ => PNone
  | _ => to_value n
  end.

(** A value that is neither a [dict] nor a [list]. *)
Definition is_scalar (v : value) : bool :=
  match v with PDict _ | PList _ => false | _ => true end.

(** The cached strings and the fields of the leaves are scalars. *)
Fixpoint plain_leaves (n : node) : bool :=
  match n with
  | FunctionCall cached name arguments =>
      is_scalar cached && is_scalar name && forallb plain_leaves arguments
  | RangeNode cached s e => is_scalar cached && is_scalar s && is_scalar e
  | ReferenceNode cached sheet col row num =>
      is_scalar cached && is_scalar sheet && is_scalar col && is_scalar row && is_scalar num
  | ConstantNode literal => is_scalar literal
  | ExpressionNode cached parts => is_scalar cached && forallb plain_leaves parts
  | OperatorNode _ => true
  end.

Definition tag_is (tag : string) (names : list string) : nat :=
  if existsb (String.eqb tag) names then 1 else 0.

(** How many nodes of the tree carry the key [tag]: a function call has
    the keys [function] and [arguments], every other node its kind tag. *)
Fixpoint kind_count (tag : string) (n : node) : nat :=
  match n with
  | FunctionCall _ _ arguments =>
      tag_is tag ["function"; "arguments"] + sum_list_with (kind_count tag) arguments
  | RangeNode _ _ _ => tag_is tag ["range"]
  | ReferenceNode _ _ _ _ _ => tag_is tag ["reference"]
  | ConstantNode _ => tag_is tag ["constant"]
  | ExpressionNode _ parts =>
      tag_is tag ["expression"] + sum_list_with (kind_count tag) parts
  | OperatorNode _ => tag_is tag ["operator"]
  end.

(** A formula no rule accepts, and one with such an argument. *)
Definition unrecognized : parser :=
  {| formula := "?"; full_formula := "=?"; parsed_formula := None |}.

(* ===================================================================== *)
(** ** Properties *)
(* ===================================================================== *)

(* --------------------------------------------------------------------- *)
(** *** Comprehensions and joins *)

Lemma map_outcome_ret {A B : Type} (f : A -> outcome B) (g : A -> B) (l : list A) :
  Forall (fun x => f x = Ret (g x)) l -> map_outcome f l = Ret (map g l).
Proof.
  induction 1 as [|x l Hx _ IH]; simpl; [reflexivity|].
  rewrite Hx. simpl. rewrite IH. reflexivity.
Qed.

Lemma py_join_strs (sep : string) (l : list string) :
  py_join sep (map PStr l) = Ret (join sep l).
Proof.
  unfold py_join.
  assert (H : forallb is_str (map PStr l) = true) by (induction l; simpl; auto).
  rewrite H. f_equal. f_equal. rewrite map_map. simpl. apply map_id.
Qed.

Lemma no_node_is_a_string (k : string) (l : list node) :
  existsb (value_is k) (map to_value l) = false.
Proof. induction l as [|n l IH]; [reflexivity|]. destruct n; exact IH. Qed.

(* --------------------------------------------------------------------- *)
(** *** Classification, over any classes *)

Section OnAnyClasses.

Context {FunctionC : FunctionClass} {RangeC : RangeClass}
        {ReferenceC : ReferenceClass} {ConstantC : ConstantClass}
        {ExpressionC : ExpressionClass}.

(** The cascade of [parse_expression] on a string, rule by rule. *)
Lemma parse_expression_str (fuel : nat) (s : string) :
  Parser.parse_expression (S fuel) (PStr s)
  = let expr := strip s in
    if accepts KFunction expr then build fuel KFunction expr
    else if accepts KRange expr then build fuel KRange expr
    else if accepts KReference expr then build fuel KReference expr
    else if accepts KConstant expr then build fuel KConstant expr
    else if accepts KExpression expr then build fuel KExpression expr
    else if accepts KOperator expr then build fuel KOperator expr
    else Ret PNone.
Proof. reflexivity. Qed.

Lemma build_built_as (fuel : nat) (k : kind) (expr : string) (v : value) :
  build fuel k expr = Ret v -> built_as k expr v.
Proof.
  destruct k; simpl; intros H.
  - destruct (Function_new expr) as [func| |]; try discriminate. simpl in H.
    destruct (map_outcome _ _) as [arguments| |]; try discriminate.
    injection H as <-. eauto.
  - destruct (Range_new expr) as [o| |]; try discriminate.
    injection H as <-. eauto.
  - destruct (Reference_new expr) as [o| |]; try discriminate.
    injection H as <-. eauto.
  - destruct (Constant_new expr) as [o| |]; try discriminate.
    injection H as <-. eauto.
  - destruct (Expression_new expr) as [o| |]; try discriminate. simpl in H.
    destruct (map_outcome _ _) as [parts| |]; try discriminate.
    injection H as <-. eauto.
  - injection H as <-. reflexivity.
Qed.

(** C4: classification in [parse_expression] is first match wins in the
    order Function, Range, Reference, Constant, Expression, Operator. When
    the rule [k] accepts the trimmed text and every rule before it rejects
    it, the call is the node of rule [k], whatever the rules after [k] would
    say; and whatever that call returns is a node of kind [k]. *)
Theorem parse_expression_first_match (s : string) (fuel : nat) (k : kind) :
  accepts k (strip s) = true ->
  (forall k', rank k' < rank k -> accepts k' (strip s) = false) ->
  Parser.parse_expression (S fuel) (PStr s) = build fuel k (strip s) /\
  forall v, Parser.parse_expression (S fuel) (PStr s) = Ret v -> built_as k (strip s) v.
Proof.
  intros Hk Hearlier.
  assert (Heq : Parser.parse_expression (S fuel) (PStr s) = build fuel k (strip s)).
  { rewrite parse_expression_str. cbv zeta.
    destruct k; simpl in Hearlier;
      repeat match goal with
      | |- (if accepts ?k' ?e then _ else _) = build _ ?k _ =>
          first [ rewrite Hk; reflexivity
                | rewrite (Hearlier k') by (simpl; lia) ]
      end. }
  split; [exact Heq|].
  intros v Hv. rewrite Heq in Hv. exact (build_built_as fuel k (strip s) v Hv).
Qed.

(** C7: a string that none of the six rules accepts gives [None]: the call
    returns, with no node and no exception. *)
Theorem parse_expression_no_match (s : string) (fuel : nat) :
  (forall k, accepts k (strip s) = false) ->
  Parser.parse_expression (S fuel) (PStr s) = Ret PNone.
Proof.
  intros Hnone. rewrite parse_expression_str. cbv zeta.
  rewrite !Hnone. reflexivity.
Qed.

(** C6: classifying a built Expression node again does not give the node
    back. The [dict] branch hands the node's components, a list, to
    [parse_expression], which returns [None] for anything that is neither a
    [dict] nor a [str]; so the node becomes [None], and so does an
    Expression argument of a FunctionCall node that is classified again. *)
Theorem reclassify_expression_node (cached : value) (parts : list node) (fuel : nat) :
  Parser.parse_expression (S (S fuel)) (to_value (ExpressionNode cached parts)) = Ret PNone /\
  forall cached' name,
    Parser.parse_expression (S (S (S fuel)))
      (to_value (FunctionCall cached' name [ExpressionNode cached parts]))
    = Ret (PDict [("function", cached');
                  ("components", PDict [("name", name); ("arguments", PList [PNone])])]).
Proof. split; reflexivity. Qed.

(** C3: [translate] returns the parser with [formula] and [full_formula]
    as they were and the translated tree in [parsed_formula] only; [parse],
    [to_dict], [reconstructed_formula] and [__str__] read [formula] alone,
    so each gives after the call what it gave before. *)
Theorem translate_frame (fuel : nat) (self self' : parser) (from_cell to_cell : string) :
  Parser.translate fuel self from_cell to_cell = Ret self' ->
  formula self' = formula self /\
  full_formula self' = full_formula self /\
  (exists translated, parsed_formula self' = Some translated) /\
  forall n,
    Parser.parse n self' = Parser.parse n self /\
    Parser.to_dict n self' = Parser.to_dict n self /\
    Parser.reconstructed_formula n self' = Parser.reconstructed_formula n self /\
    forall JsonC : JsonModule, Parser.str n self' = Parser.str n self.
Proof.
  unfold Parser.translate. intros H.
  destruct (Reference_new from_cell) as [from_ref| |]; try discriminate.
  destruct (Reference_new to_cell) as [to_ref| |]; try discriminate.
  simpl in H.
  destruct (Parser.parse fuel self) as [parsed| |]; try discriminate.
  simpl in H.
  destruct (Parser.recurse_translate _ _ fuel parsed) as [translated| |]; try discriminate.
  simpl in H. injection H as <-. simpl.
  repeat split; eauto.
Qed.

(** The terminal nodes go through [recurse_translate] as they are. *)
Lemma recurse_translate_terminal (col_shift row_shift : Z) (fuel : nat) (n : node) :
  (exists symbol, n = OperatorNode symbol) \/ (exists literal, n = ConstantNode literal) ->
  Parser.recurse_translate col_shift row_shift (S fuel) (to_value n) = Ret (to_value n).
Proof. intros [[symbol ->]|[literal ->]]; reflexivity. Qed.

End OnAnyClasses.

(* --------------------------------------------------------------------- *)
(** *** Reconstruction *)

Lemma rendered_children (fuel : nat) (l : list node) :
  Forall (fun n => forall fuel, depth n < fuel ->
            Parser.json_to_string fuel (to_value n) = Ret (PStr (render n))) l ->
  foldr Nat.max 0 (map depth l) < fuel ->
  map_outcome (Parser.json_to_string fuel) (map to_value l)
  = Ret (map PStr (map render l)).
Proof.
  induction 1 as [|n l Hn _ IH]; simpl; intros Hfuel; [reflexivity|].
  rewrite Hn by lia. simpl. rewrite IH by lia. reflexivity.
Qed.

(** [json_to_string] on a tree of nodes, for use below. *)
Lemma json_to_string_of_tree (n : node) :
  forall fuel, depth n < fuel ->
  Parser.json_to_string fuel (to_value n) = Ret (PStr (render n)).
Proof.
  induction n as [cached name arguments IH| |cached sheet col row num| |cached parts IH|]
    using node_induction; intros [|fuel] Hfuel; try lia; try reflexivity.
  - simpl in Hfuel. apply PeanoNat.lt_S_n in Hfuel.
    cbn -[join String.append].
    rewrite rendered_children by assumption. simpl.
    rewrite py_join_strs. reflexivity.
  - cbn -[String.append]. destruct (truthy sheet); reflexivity.
  - simpl in Hfuel. apply PeanoNat.lt_S_n in Hfuel.
    cbn -[join String.append].
    rewrite rendered_children by assumption. simpl.
    rewrite py_join_strs. reflexivity.
Qed.

(** C8: [json_to_string] goes by the kind tag of the node and gives, for
    every tree of nodes and whatever cached strings the nodes carry, the
    text of section 4.7: [name(arg1, arg2, ...)] for a function call,
    [start:end] for a range, the column and row of a reference behind
    ['sheet'!] when it has a sheet name, the parts of an expression joined
    by one space inside one pair of parentheses, the symbol of an operator
    and [str] of the literal of a constant. The call returns once the
    budget exceeds the depth of the tree. *)
Theorem json_to_string_render (n : node) :
  forall fuel, depth n < fuel ->
  Parser.json_to_string fuel (to_value n) = Ret (PStr (render n)).
Proof.
  induction n using node_induction; intros [|fuel] Hfuel; try lia.
  - simpl in Hfuel. apply PeanoNat.lt_S_n in Hfuel.
    cbn -[join String.append].
    rewrite rendered_children by assumption. simpl.
    rewrite py_join_strs. reflexivity.
  - reflexivity.
  - cbn -[String.append]. destruct (truthy sheet); reflexivity.
  - reflexivity.
  - simpl in Hfuel. apply PeanoNat.lt_S_n in Hfuel.
    cbn -[join String.append].
    rewrite rendered_children by assumption. simpl.
    rewrite py_join_strs. reflexivity.
  - reflexivity.
Qed.

Lemma json_to_string_render_witness :
  depth SUM_A1_MAX_tree < 4 /\
  Parser.json_to_string 4 (to_value SUM_A1_MAX_tree) = Ret (PStr (render SUM_A1_MAX_tree)).
Proof.
  assert (H : depth SUM_A1_MAX_tree < 4) by (simpl; lia).
  split; [exact H | exact (json_to_string_render SUM_A1_MAX_tree 4 H)].
Defined.

(* --------------------------------------------------------------------- *)
(** *** The key counter *)

Lemma bump_bump (a b : nat) (o : option nat) : bump b (bump a o) = bump (a + b) o.
Proof.
  unfold bump. destruct a, b; simpl; try reflexivity.
  - rewrite Nat.add_0_r. reflexivity.
  - f_equal. lia.
Qed.

Lemma bump_none (n : nat) : bump n None = shown_count n.
Proof. unfold bump, shown_count. destruct n; reflexivity. Qed.

Lemma counted_counted (A : gset string) (k : string) (a b : nat) (o : option nat) :
  counted A k b (counted A k a o) = counted A k (a + b) o.
Proof. unfold counted. destruct (bool_decide (k ∈ A)); [apply bump_bump|reflexivity]. Qed.

Lemma counted_zero (A : gset string) (k : string) (o : option nat) : counted A k 0 o = o.
Proof. unfold counted, bump. simpl. destruct (bool_decide (k ∈ A)); reflexivity. Qed.

Lemma count_key_lookup (A : gset string) (key k : string) (kc : gmap string nat) :
  Parser.count_key A key kc !! k
  = counted A k (if String.eqb k key then 1 else 0) (kc !! k).
Proof.
  unfold Parser.count_key, counted.
  destruct (String.eqb_spec k key) as [->|Hne].
  - destruct (bool_decide (key ∈ A)); [|reflexivity].
    rewrite lookup_insert_eq. reflexivity.
  - assert (Hk : (if bool_decide (key ∈ A)
                  then <[key:=default 0 (kc !! key) + 1]> kc else kc) !! k = kc !! k).
    { destruct (bool_decide (key ∈ A)); [|reflexivity].
      apply lookup_insert_ne. congruence. }
    rewrite Hk. destruct (bool_decide (k ∈ A)); reflexivity.
Qed.

(** The loop of [count_keys] over the items of a dictionary. *)
Lemma count_keys_dict (A : gset string) (entries : list (string * value))
    (kc : gmap string nat) :
  Parser.count_keys A (PDict entries) kc
  = foldl (fun kc kv => visit A (snd kv) (Parser.count_key A (fst kv) kc)) kc entries.
Proof.
  simpl. revert kc. induction entries as [|[key v] entries IH]; intros kc; [reflexivity|].
  simpl. rewrite IH. reflexivity.
Qed.

Lemma visit_lookup (A : gset string) (v : value) :
  lists_hold_no_list v = true ->
  forall kc k, visit A v kc !! k = counted A k (occurrences k v) (kc !! k).
Proof.
  induction v as [| | | | |items IHitems|entries IHentries] using value_induction;
    intros Hok kc k; try (symmetry; apply counted_zero).
  - simpl in Hok. simpl visit. simpl occurrences.
    revert kc. induction IHitems as [|x items Hx _ IH]; intros kc.
    + symmetry; apply counted_zero.
    + simpl in Hok. apply andb_prop in Hok as [Hx' Hitems].
      apply andb_prop in Hx' as [Hnl Hxok].
      simpl. rewrite (IH Hitems). rewrite <- counted_counted. f_equal.
      specialize (Hx Hxok kc k).
      destruct x; simpl in *; try exact Hx; try discriminate.
  - unfold visit. rewrite count_keys_dict. simpl in Hok. simpl occurrences.
    revert kc. induction IHentries as [|[key x] entries Hx _ IH]; intros kc.
    + symmetry; apply counted_zero.
    + simpl in Hok. apply andb_prop in Hok as [Hxok Hentries].
      simpl. rewrite (IH Hentries). rewrite <- counted_counted. f_equal.
      simpl in Hx. rewrite (Hx Hxok). rewrite <- counted_counted. f_equal.
      rewrite count_key_lookup. reflexivity.
Qed.

Lemma default_acceptable_keys_tags (k : string) :
  bool_decide (k ∈ Parser.default_acceptable_keys) = existsb (String.eqb k) recognized_tags.
Proof.
  unfold Parser.default_acceptable_keys, recognized_tags. simpl.
  repeat match goal with
         | |- context [String.eqb k ?t] => destruct (String.eqb_spec k t) as [->|?]
         end; simpl.
  all: try (apply bool_decide_eq_true; rewrite !elem_of_union, !elem_of_singleton; tauto).
  apply bool_decide_eq_false. rewrite !elem_of_union, !elem_of_singleton. tauto.
Qed.

Lemma single_label_key (label k : string) :
  label <> "" ->
  bool_decide (k ∈ Parser.acceptable_keys (Some label)) = String.eqb k label.
Proof.
  intros Hne. unfold Parser.acceptable_keys. simpl.
  destruct (String.eqb_spec label "") as [?|_]; [contradiction|]. simpl.
  destruct (String.eqb_spec k label) as [->|?].
  - apply bool_decide_eq_true. apply elem_of_singleton. reflexivity.
  - apply bool_decide_eq_false. rewrite elem_of_singleton. assumption.
Qed.

Lemma get_all_keys_with_counts_visit (entries : list (string * value))
    (label : option string) :
  Parser.get_all_keys_with_counts (PDict entries) None label
  = Ret (visit (Parser.acceptable_keys label) (PDict entries) ∅).
Proof. reflexivity. Qed.

(** C10: on a tree (a dictionary in which no list holds a list),
    [get_all_keys_with_counts] returns the dictionary that gives, for each
    of the seven kind tags, how often the tag is a key anywhere in the
    nested dictionaries and lists of the tree, with no entry for a tag that
    never occurs and none for any other key; asked for one label, it
    returns the count of that label alone. The tree is only read: the one
    object the function writes to is the dictionary of counts. *)
Theorem get_all_keys_with_counts_counts (entries : list (string * value)) :
  lists_hold_no_list (PDict entries) = true ->
  (exists m, Parser.get_all_keys_with_counts (PDict entries) None None = Ret m /\
     forall k, m !! k = if existsb (String.eqb k) recognized_tags
                        then shown_count (occurrences k (PDict entries)) else None)
  /\
  (forall label, label <> "" ->
     exists m, Parser.get_all_keys_with_counts (PDict entries) None (Some label) = Ret m /\
       forall k, m !! k = if String.eqb k label
                          then shown_count (occurrences k (PDict entries)) else None).
Proof.
  intros Hok. split.
  - eexists. split; [apply get_all_keys_with_counts_visit|]. intros k.
    rewrite (visit_lookup _ _ Hok). unfold counted.
    rewrite lookup_empty, bump_none.
    change (Parser.acceptable_keys None) with Parser.default_acceptable_keys.
    rewrite default_acceptable_keys_tags. reflexivity.
  - intros label Hne. eexists. split; [apply get_all_keys_with_counts_visit|]. intros k.
    rewrite (visit_lookup _ _ Hok). unfold counted.
    rewrite lookup_empty, bump_none, single_label_key by assumption. reflexivity.
Qed.

Lemma get_all_keys_with_counts_counts_witness :
  lists_hold_no_list (PDict (entries_of (to_value SUM_A1_MAX_tree))) = true /\
  (exists m,
     Parser.get_all_keys_with_counts (PDict (entries_of (to_value SUM_A1_MAX_tree))) None None
     = Ret m /\
     forall k, m !! k = if existsb (String.eqb k) recognized_tags
                        then shown_count
                               (occurrences k (PDict (entries_of (to_value SUM_A1_MAX_tree))))
                        else None).
Proof.
  assert (H : lists_hold_no_list (PDict (entries_of (to_value SUM_A1_MAX_tree))) = true)
    by (vm_compute; reflexivity).
  split; [exact H|].
  exact (proj1 (get_all_keys_with_counts_counts (entries_of (to_value SUM_A1_MAX_tree)) H)).
Defined.

(* --------------------------------------------------------------------- *)
(** *** With the classes of the specification *)

#[local] Existing Instances
  SpecModel.FunctionModel SpecModel.RangeModel SpecModel.ReferenceModel
  SpecModel.ConstantModel SpecModel.ExpressionModel.

Lemma parse_expression_first_match_witness :
  Parser.parse_expression 1 (PStr " A1:B2 ") = build 0 KRange (strip " A1:B2 ") /\
  forall v, Parser.parse_expression 1 (PStr " A1:B2 ") = Ret v ->
            built_as KRange (strip " A1:B2 ") v.
Proof.
  apply (parse_expression_first_match " A1:B2 " 0 KRange).
  - vm_compute; reflexivity.
  - intros k' Hk'. destruct k'; simpl in Hk'; try (exfalso; lia). vm_compute; reflexivity.
Defined.

Lemma parse_expression_no_match_witness :
  Parser.parse_expression 1 (PStr "?") = Ret PNone.
Proof.
  apply (parse_expression_no_match "?" 0).
  intros k. destruct k; vm_compute; reflexivity.
Defined.

Lemma translate_frame_witness :
  Parser.translate 4 SUM_A1_B2 "A1" "C3"
  = Ret {| formula := "SUM(A1, B2)";
           full_formula := "=SUM(A1, B2)";
           parsed_formula := Some (to_value (shifted 2 2 SUM_A1_B2_tree)) |} /\
  forall n,
    Parser.parse n {| formula := "SUM(A1, B2)";
                      full_formula := "=SUM(A1, B2)";
                      parsed_formula := Some (to_value (shifted 2 2 SUM_A1_B2_tree)) |}
    = Parser.parse n SUM_A1_B2.
Proof.
  assert (H : Parser.translate 4 SUM_A1_B2 "A1" "C3"
              = Ret {| formula := "SUM(A1, B2)";
                       full_formula := "=SUM(A1, B2)";
                       parsed_formula := Some (to_value (shifted 2 2 SUM_A1_B2_tree)) |})
    by (vm_compute; reflexivity).
  split; [exact H|].
  intros n.
  exact (proj1 (proj2 (proj2 (proj2 (translate_frame 4 SUM_A1_B2 _ "A1" "C3" H))) n)).
Defined.

(** The error of a formula without its [=] names the rule, not the
    formula. *)
Lemma init_error_omits_the_formula :
  Parser.init "SUM(A1,B2)" = Raise (ValueError "Formula must start with an '=' sign.") /\
  carries_text (ValueError "Formula must start with an '=' sign.") "SUM(A1,B2)" = false.
Proof. split; vm_compute; reflexivity. Qed.

(** C5 (as amended): construction fails in exactly two cases, both with a
    [ValueError] whose message is a fixed text that names the rule broken
    and does not include the formula: the text does not start with [=], or
    (it does and) its parentheses are unbalanced. Otherwise the parser is
    made with the text after the [=] as [formula], the whole text as
    [full_formula], and no tree. [=SUM(A1,B2] and [SUM(A1,B2)] both fail. *)
Theorem construction_checks :
  (forall (ExpressionC : ExpressionClass) (formula_str : string),
     match Parser.init formula_str with
     | Ret self =>
         String.prefix "=" formula_str = true /\
         Expression_has_balanced_parentheses formula_str = true /\
         self = {| formula := drop_first formula_str;
                   full_formula := formula_str;
                   parsed_formula := None |}
     | Raise e =>
         (String.prefix "=" formula_str = false /\
          e = ValueError "Formula must start with an '=' sign.") \/
         (String.prefix "=" formula_str = true /\
          Expression_has_balanced_parentheses formula_str = false /\
          e = ValueError "Unbalanced parentheses in formula.")
     | OutOfFuel => False
     end) /\
  Parser.init "=SUM(A1,B2" = Raise (ValueError "Unbalanced parentheses in formula.") /\
  Parser.init "SUM(A1,B2)" = Raise (ValueError "Formula must start with an '=' sign.").
Proof.
  split; [|split; vm_compute; reflexivity].
  intros ExpressionC formula_str. unfold Parser.init.
  destruct (String.prefix "=" formula_str); simpl.
  - destruct (Expression_has_balanced_parentheses formula_str); simpl; auto.
  - auto.
Qed.

(* --------------------------------------------------------------------- *)
(** *** Translation *)

Lemma translate_reference_node (dc dr : Z) (fuel : nat) (cached : value)
    (sheet : option string) (letters : string) (row column : Z) :
  Parser.recurse_translate dc dr (S fuel)
    (to_value (ReferenceNode cached (SpecModel.sheet_value sheet)
                             (PStr letters) (PInt row) (PInt column)))
  = Ret (to_value (reference_node sheet (column + dc) (row + dr))).
Proof. destruct sheet; reflexivity. Qed.

Lemma translated_children (dc dr : Z) (fuel : nat) (l : list node) :
  Forall (fun n => translatable n = true -> forall fuel, 3 * depth n < fuel ->
            Parser.recurse_translate dc dr fuel (to_value n)
            = Ret (to_value (shifted dc dr n))) l ->
  forallb translatable l = true ->
  3 * foldr Nat.max 0 (map depth l) < fuel ->
  map_outcome (Parser.recurse_translate dc dr fuel) (map to_value l)
  = Ret (map to_value (map (shifted dc dr) l)).
Proof.
  induction 1 as [|n l Hn _ IH]; simpl; intros Hok Hfuel; [reflexivity|].
  apply andb_prop in Hok as [Hn' Hl].
  rewrite Hn by (assumption || lia). simpl. rewrite IH by (assumption || lia). reflexivity.
Qed.

(** [recurse_translate] moves every reference of a tree of function calls. *)
Lemma recurse_translate_shifted (dc dr : Z) (n : node) :
  translatable n = true ->
  forall fuel, 3 * depth n < fuel ->
  Parser.recurse_translate dc dr fuel (to_value n) = Ret (to_value (shifted dc dr n)).
Proof.
  induction n as [cached name arguments IH| |cached sheet col row num| | |]
    using node_induction; intros Hok [|fuel] Hfuel; try lia; try discriminate.
  - destruct cached; try discriminate. destruct name; try discriminate.
    simpl in Hok. simpl in Hfuel.
    destruct fuel as [|[|fuel]]; try lia.
    cbn -[join String.append SpecModel.argument_str].
    rewrite !no_node_is_a_string.
    rewrite (translated_children dc dr fuel arguments IH Hok) by lia.
    unfold SpecModel.function_str. simpl. rewrite map_map. reflexivity.
  - destruct col; try discriminate. destruct row; try discriminate.
    destruct num; try discriminate.
    destruct sheet; try discriminate.
    + exact (translate_reference_node dc dr fuel cached None s z z0).
    + exact (translate_reference_node dc dr fuel cached (Some s0) s z z0).
  - reflexivity.
  - reflexivity.
Qed.

(** C9: in [recurse_translate] an Operator node and a Constant node are
    returned as they are, whatever the classes; and a Reference node comes
    back with its column number and row number increased by the shifts,
    its column letters those of the new column number, its sheet name the
    one it had, and as cached string the text of the reference after the
    move. *)
Theorem translate_terminals_and_references :
  (forall (FunctionC : FunctionClass) (RangeC : RangeClass) (ReferenceC : ReferenceClass)
          (ExpressionC : ExpressionClass) (col_shift row_shift : Z) (fuel : nat)
          (symbol : string) (literal : value),
     Parser.recurse_translate col_shift row_shift (S fuel) (to_value (OperatorNode symbol))
     = Ret (to_value (OperatorNode symbol)) /\
     Parser.recurse_translate col_shift row_shift (S fuel) (to_value (ConstantNode literal))
     = Ret (to_value (ConstantNode literal))) /\
  (forall (col_shift row_shift : Z) (fuel : nat) (cached : value) (sheet : option string)
          (letters : string) (row column : Z),
     Parser.recurse_translate col_shift row_shift (S fuel)
       (to_value (ReferenceNode cached (SpecModel.sheet_value sheet)
                                (PStr letters) (PInt row) (PInt column)))
     = Ret (to_value
              (ReferenceNode
                 (PStr (SpecModel.reference_str
                          {| SpecModel.sheet_name := sheet;
                             SpecModel.column_letter :=
                               SpecModel.number_to_letters (column + col_shift);
                             SpecModel.row_number := (row + row_shift)%Z;
                             SpecModel.column_number := (column + col_shift)%Z |}))
                 (SpecModel.sheet_value sheet)
                 (PStr (SpecModel.number_to_letters (column + col_shift)))
                 (PInt (row + row_shift))
                 (PInt (column + col_shift))))).
Proof.
  split.
  - intros. split; apply recurse_translate_terminal; eauto.
  - intros. apply translate_reference_node.
Qed.

(** C1: [translate("A1", "C3")] on the parser of [=SUM(A1, B2)] stores the
    FunctionCall node whose arguments are the references C3 and D4. In
    general the shifts are the column number and the row number of [to]
    less those of [from], and every reference of a tree of function calls
    gets both added to its column and row, with its cached string made
    anew. *)
Theorem translate_SUM_A1_B2 :
  (forall fuel,
     Parser.init "=SUM(A1, B2)" = Ret SUM_A1_B2 /\
     exists cached,
       Parser.translate (4 + fuel) SUM_A1_B2 "A1" "C3"
       = Ret {| formula := "SUM(A1, B2)";
                full_formula := "=SUM(A1, B2)";
                parsed_formula :=
                  Some (to_value
                          (FunctionCall cached (PStr "SUM")
                             [ReferenceNode (PStr "C3") PNone (PStr "C") (PInt 3) (PInt 3);
                              ReferenceNode (PStr "D4") PNone (PStr "D") (PInt 4) (PInt 4)])) |})
  /\
  (forall (self : parser) (from_cell to_cell : string)
          (from_ref to_ref : SpecModel.reference_rec) (n : node) (fuel : nat),
     Reference_new from_cell = Ret from_ref ->
     Reference_new to_cell = Ret to_ref ->
     Parser.parse fuel self = Ret (to_value n) ->
     translatable n = true ->
     3 * depth n < fuel ->
     Parser.translate fuel self from_cell to_cell
     = Ret {| formula := formula self;
              full_formula := full_formula self;
              parsed_formula :=
                Some (to_value
                        (shifted
                           (SpecModel.column_number to_ref - SpecModel.column_number from_ref)
                           (SpecModel.row_number to_ref - SpecModel.row_number from_ref)
                           n)) |}).
Proof.
  split.
  - intros fuel. split; [vm_compute; reflexivity|].
    exists (PStr "SUM(A1, B2)"). vm_compute; reflexivity.
  - intros self from_cell to_cell from_ref to_ref n fuel Hfrom Hto Hparse Hok Hfuel.
    unfold Parser.translate. rewrite Hfrom, Hto. simpl. rewrite Hparse. simpl.
    rewrite (recurse_translate_shifted _ _ n Hok fuel Hfuel). reflexivity.
Qed.

Lemma translate_SUM_A1_B2_witness :
  Parser.translate 4 SUM_A1_B2 "A1" "C3"
  = Ret {| formula := "SUM(A1, B2)";
           full_formula := "=SUM(A1, B2)";
           parsed_formula := Some (to_value (shifted (3 - 1) (3 - 1) SUM_A1_B2_tree)) |}.
Proof.
  apply (proj2 translate_SUM_A1_B2 SUM_A1_B2 "A1" "C3"
           {| SpecModel.sheet_name := None; SpecModel.column_letter := "A";
              SpecModel.row_number := 1; SpecModel.column_number := 1 |}
           {| SpecModel.sheet_name := None; SpecModel.column_letter := "C";
              SpecModel.row_number := 3; SpecModel.column_number := 3 |}
           SUM_A1_B2_tree 4).
  - vm_compute; reflexivity.
  - vm_compute; reflexivity.
  - vm_compute; reflexivity.
  - vm_compute; reflexivity.
  - simpl; lia.
Defined.

(* --------------------------------------------------------------------- *)
(** *** The round trip *)

Lemma remove_char_app (c : ascii) (a b : string) :
  remove_char c (a +:+ b) = remove_char c a +:+ remove_char c b.
Proof.
  induction a as [|x a IH]; simpl; [reflexivity|].
  destruct (Ascii.eqb x c); simpl; rewrite IH; reflexivity.
Qed.

Lemma without_parentheses_app (a b : string) :
  without_parentheses (a +:+ b) = without_parentheses a +:+ without_parentheses b.
Proof. unfold without_parentheses. rewrite !remove_char_app. reflexivity. Qed.

Lemma without_parentheses_join (sep : string) (l : list node) :
  Forall (fun n => without_parentheses (render n) = without_parentheses (flat n)) l ->
  without_parentheses (join sep (map render l))
  = without_parentheses (join sep (map flat l)).
Proof.
  induction 1 as [|n l Hn Hl IH]; [reflexivity|].
  destruct l as [|n' l]; simpl in *; [exact Hn|].
  rewrite !without_parentheses_app, Hn, IH. reflexivity.
Qed.

(** The parentheses [json_to_string] puts around an expression are all
    that sets its text apart from the flat one. *)
Lemma render_flat (n : node) :
  without_parentheses (render n) = without_parentheses (flat n).
Proof.
  induction n as [cached name arguments IH| | | |cached parts IH|] using node_induction;
    try reflexivity.
  - simpl. rewrite !without_parentheses_app.
    rewrite (without_parentheses_join ", " arguments) by assumption. reflexivity.
  - simpl. rewrite !without_parentheses_app.
    rewrite (without_parentheses_join " " parts) by assumption.
    change (without_parentheses "(") with "". change (without_parentheses ")") with "".
    generalize (without_parentheses (join " " (map flat parts))).
    intros t. change ("" +:+ t +:+ "") with (t +:+ "").
    induction t as [|x t IHt]; [reflexivity|].
    change (String x t +:+ "") with (String x (t +:+ "")). f_equal. exact IHt.
Qed.

(** With its arguments written without a space, [=SUM(A1,B2)] does not
    come back as it was, parentheses apart. *)
Lemma roundtrip_SUM_A1_B2_unspaced :
  Parser.init "=SUM(A1,B2)" = Ret SUM_A1_B2_unspaced /\
  Parser.reconstructed_formula 3 SUM_A1_B2_unspaced = Ret "=SUM(A1, B2)" /\
  without_parentheses "=SUM(A1, B2)" = "=SUMA1, B2" /\
  without_parentheses "=SUM(A1,B2)" = "=SUMA1,B2" /\
  String.eqb (without_parentheses "=SUM(A1, B2)") (without_parentheses "=SUM(A1,B2)") = false.
Proof. split; [|split; [|split; [|split]]]; vm_compute; reflexivity. Qed.

(** C2 (as amended): whenever the parse of a formula is a tree of nodes,
    [reconstructed_formula] is [=] followed by the text of that tree, in
    which arguments are joined by a comma and a space, the parts of an
    expression by one space, and every expression stands in one pair of
    parentheses, whatever the spacing of the formula was; with the
    parentheses removed it is the flat text of the tree. For
    [=SUM(A1, MAX(B1, C1 + D1))] and for the formula of the demonstration
    in [parser.py], which are written with that spacing, the formula and
    its reconstruction are the same text once the parentheses are removed
    from both. *)
Theorem reconstructed_formula_canonical :
  (forall (FunctionC : FunctionClass) (RangeC : RangeClass) (ReferenceC : ReferenceClass)
          (ConstantC : ConstantClass) (ExpressionC : ExpressionClass)
          (self : parser) (n : node) (fuel : nat),
     Parser.parse fuel self = Ret (to_value n) ->
     depth n < fuel ->
     Parser.reconstructed_formula fuel self = Ret ("=" +:+ render n) /\
     without_parentheses ("=" +:+ render n) = "=" +:+ without_parentheses (flat n))
  /\
  (forall fuel,
     Parser.init "=SUM(A1, MAX(B1, C1 + D1))" = Ret SUM_A1_MAX /\
     Parser.parse (4 + fuel) SUM_A1_MAX = Ret (to_value SUM_A1_MAX_tree) /\
     Parser.reconstructed_formula (4 + fuel) SUM_A1_MAX = Ret "=SUM(A1, MAX(B1, (C1 + D1)))" /\
     without_parentheses "=SUM(A1, MAX(B1, (C1 + D1)))"
     = without_parentheses "=SUM(A1, MAX(B1, C1 + D1))")
  /\
  (forall fuel,
     Parser.init "=IF(AND(A1 > 0, B1 < 0), SUM(PRODUCT(A1, B2, MAX(C1, C2)), 10), 100)"
     = Ret IF_AND_demo /\
     Parser.reconstructed_formula (5 + fuel) IF_AND_demo
     = Ret "=IF(AND((A1 > 0), (B1 < 0)), SUM(PRODUCT(A1, B2, MAX(C1, C2)), 10), 100)" /\
     without_parentheses
       "=IF(AND((A1 > 0), (B1 < 0)), SUM(PRODUCT(A1, B2, MAX(C1, C2)), 10), 100)"
     = without_parentheses
         "=IF(AND(A1 > 0, B1 < 0), SUM(PRODUCT(A1, B2, MAX(C1, C2)), 10), 100)").
Proof.
  split.
  - intros FunctionC RangeC ReferenceC ConstantC ExpressionC self n fuel Hparse Hfuel.
    split.
    + unfold Parser.reconstructed_formula. rewrite Hparse. simpl.
      rewrite (json_to_string_of_tree n fuel Hfuel). reflexivity.
    + rewrite without_parentheses_app, render_flat. reflexivity.
  - split.
    + intros fuel. split; [|split; [|split]]; vm_compute; reflexivity.
    + intros fuel. split; [|split]; vm_compute; reflexivity.
Qed.

Lemma reconstructed_formula_canonical_witness :
  Parser.reconstructed_formula 4 SUM_A1_MAX = Ret ("=" +:+ render SUM_A1_MAX_tree) /\
  without_parentheses ("=" +:+ render SUM_A1_MAX_tree)
  = "=" +:+ without_parentheses (flat SUM_A1_MAX_tree).
Proof.
  apply (proj1 reconstructed_formula_canonical _ _ _ _ _ SUM_A1_MAX SUM_A1_MAX_tree 4).
  - vm_compute; reflexivity.
  - simpl; lia.
Defined.

(* ===================================================================== *)
(** ** Further properties of the parser *)
(* ===================================================================== *)

(* --------------------------------------------------------------------- *)
(** *** Comprehensions *)

Lemma map_outcome_app {A B : Type} (f : A -> outcome B) (l1 l2 : list A) :
  map_outcome f (l1 ++ l2)
  = let* ys1 := map_outcome f l1 in let* ys2 := map_outcome f l2 in Ret (ys1 ++ ys2).
Proof.
  induction l1 as [|x l1 IH]; simpl.
  - destruct (map_outcome f l2); reflexivity.
  - destruct (f x); simpl; try reflexivity. rewrite IH.
    destruct (map_outcome f l1); simpl; try reflexivity.
    destruct (map_outcome f l2); reflexivity.
Qed.

Lemma map_outcome_Forall2 {A B : Type} (f : A -> outcome B) (l : list A) (ys : list B) :
  map_outcome f l = Ret ys -> Forall2 (fun x y => f x = Ret y) l ys.
Proof.
  revert ys. induction l as [|x l IH]; simpl; intros ys H.
  - injection H as <-. constructor.
  - destruct (f x) as [y| |] eqn:Hx; try discriminate. simpl in H.
    destruct (map_outcome f l) as [ys'| |]; try discriminate.
    injection H as <-. constructor; auto.
Qed.

(* --------------------------------------------------------------------- *)
(** *** Trimming *)

Lemma lstrip_no_space (s : string) :
  match s with String c _ => is_space c = false | EmptyString => True end ->
  lstrip s = s.
Proof. destruct s as [|c s]; simpl; [reflexivity|]. intros ->. reflexivity. Qed.

Lemma lstrip_head (s : string) :
  match lstrip s with String c _ => is_space c = false | EmptyString => True end.
Proof.
  induction s as [|c s IH]; simpl; [exact I|].
  destruct (is_space c) eqn:Hc; [exact IH|]. exact Hc.
Qed.

Lemma rstrip_head (s : string) :
  match s with String c _ => is_space c = false | EmptyString => True end ->
  match rstrip s with String c _ => is_space c = false | EmptyString => True end.
Proof.
  destruct s as [|c s]; simpl; [auto|]. intros Hc.
  destruct (rstrip s); [rewrite Hc|]; exact Hc.
Qed.

Lemma rstrip_rstrip (s : string) : rstrip (rstrip s) = rstrip s.
Proof.
  induction s as [|c s IH]; simpl; [reflexivity|].
  destruct (rstrip s) as [|c' r] eqn:Hr.
  - destruct (is_space c) eqn:Hc; simpl; [reflexivity|]. rewrite Hc. reflexivity.
  - simpl in *. rewrite IH. reflexivity.
Qed.

Lemma strip_strip (s : string) : strip (strip s) = strip s.
Proof.
  unfold strip.
  rewrite (lstrip_no_space (rstrip (lstrip s))).
  - apply rstrip_rstrip.
  - apply rstrip_head. apply lstrip_head.
Qed.

Lemma prefix_eq (s : string) : String.prefix "=" s = true -> s = "=" +:+ drop_first s.
Proof.
  destruct s as [|c s]; [discriminate|].
  unfold String.prefix. destruct (Ascii.ascii_dec "=" c) as [<-|Hne]; [|discriminate].
  reflexivity.
Qed.

(* --------------------------------------------------------------------- *)
(** *** Over any classes *)

Section FurtherOnAnyClasses.

Context {FunctionC : FunctionClass} {RangeC : RangeClass}
        {ReferenceC : ReferenceClass} {ConstantC : ConstantClass}
        {ExpressionC : ExpressionClass}.

(** X1: when no rule accepts the text of the formula, [parse] returns
    [None], and both [reconstructed_formula] and [translate] raise a
    [TypeError] on that [None]: the first in [json_to_string], at
    ['function' in json_obj], the second in [recurse_translate], at
    ['operator' in data]. *)
Theorem unrecognized_formula_raises (self : parser) (fuel : nat) :
  (forall k, accepts k (strip (formula self)) = false) ->
  Parser.parse (S fuel) self = Ret PNone /\
  Parser.reconstructed_formula (S fuel) self = Raise TypeError /\
  forall from_cell to_cell from_ref to_ref,
    Reference_new from_cell = Ret from_ref ->
    Reference_new to_cell = Ret to_ref ->
    Parser.translate (S fuel) self from_cell to_cell = Raise TypeError.
Proof.
  intros Hnone.
  assert (Hparse : Parser.parse (S fuel) self = Ret PNone).
  { unfold Parser.parse. rewrite parse_expression_str. cbv zeta. rewrite !Hnone. reflexivity. }
  split; [exact Hparse|]. split.
  - unfold Parser.reconstructed_formula. rewrite Hparse. reflexivity.
  - intros from_cell to_cell from_ref to_ref Hfrom Hto.
    unfold Parser.translate. rewrite Hfrom, Hto. simpl. rewrite Hparse. reflexivity.
Qed.

Lemma reclassified_children (fuel : nat) (l : list node) :
  Forall (fun n => forall fuel, depth n < fuel ->
            Parser.parse_expression fuel (to_value n) = Ret (reclassified n)) l ->
  foldr Nat.max 0 (map depth l) < fuel ->
  map_outcome (Parser.parse_expression fuel) (map to_value l)
  = Ret (map reclassified l).
Proof.
  induction 1 as [|n l Hn _ IH]; simpl; intros Hfuel; [reflexivity|].
  rewrite Hn by lia. simpl. rewrite IH by lia. reflexivity.
Qed.

Lemma parse_expression_reclassified (n : node) :
  forall fuel, depth n < fuel ->
  Parser.parse_expression fuel (to_value n) = Ret (reclassified n).
Proof.
  induction n as [cached name arguments IH| | | |cached parts IH|] using node_induction;
    intros [|fuel] Hfuel; try lia; try reflexivity.
  - simpl in Hfuel. apply PeanoNat.lt_S_n in Hfuel.
    cbn. rewrite (reclassified_children fuel arguments IH Hfuel). reflexivity.
  - simpl in Hfuel. destruct fuel; [lia|]. reflexivity.
Qed.

Lemma reclassified_fixed_children (l : list node) :
  Forall (fun a => reclassified a = to_value a <-> no_expression a = true) l ->
  map reclassified l = map to_value l <-> forallb no_expression l = true.
Proof.
  induction 1 as [|a l Ha _ IH]; simpl; [tauto|].
  rewrite andb_true_iff, <- Ha, <- IH. split.
  - intros H. injection H; auto.
  - intros [-> ->]. reflexivity.
Qed.

Lemma reclassified_fixed (n : node) :
  reclassified n = to_value n <-> no_expression n = true.
Proof.
  induction n as [cached name arguments IH| | | |cached parts IH|] using node_induction;
    simpl; try (split; [reflexivity|discriminate]); try tauto.
  - rewrite <- (reclassified_fixed_children arguments IH). split.
    + intros H. injection H; auto.
    + intros ->. reflexivity.
  - split; discriminate.
Qed.

(** X2: [parse_expression] applied to a built tree returns the tree as it
    is exactly when the tree holds no Expression node; the call returns
    for every tree once the budget exceeds its depth. *)
Theorem reclassify_fixed_point (n : node) (fuel : nat) :
  depth n < fuel ->
  Parser.parse_expression fuel (to_value n) = Ret (reclassified n) /\
  (Parser.parse_expression fuel (to_value n) = Ret (to_value n) <-> no_expression n = true).
Proof.
  intros Hfuel. rewrite (parse_expression_reclassified n fuel Hfuel).
  split; [reflexivity|].
  rewrite <- reclassified_fixed. split; [intros H; injection H; auto | intros ->; reflexivity].
Qed.

(** X3: the node of a function call has one argument for each raw
    argument of the text, in the same order, each the outcome of
    classifying that raw argument: one that no rule accepts stays in its
    place as [None]. The same holds for the parts of an expression. *)
Theorem arguments_keep_their_places (s : string) (fuel : nat) (v : value) :
  Parser.parse_expression (S fuel) (PStr s) = Ret v ->
  (accepts KFunction (strip s) = true ->
   exists func0 parsed,
     Function_new (strip s) = Ret func0 /\
     (let* components := py_getitem v "components" in py_getitem components "arguments")
     = Ret (PList parsed) /\
     Forall2 (fun raw node => Parser.parse_expression fuel raw = Ret node)
             (Function_args (Function_parse_arguments func0)) parsed) /\
  (accepts KExpression (strip s) = true ->
   (forall k', rank k' < rank KExpression -> accepts k' (strip s) = false) ->
   exists expression_obj parsed,
     Expression_new (strip s) = Ret expression_obj /\
     py_getitem v "components" = Ret (PList parsed) /\
     Forall2 (fun raw node => Parser.parse_expression fuel raw = Ret node)
             (Expression_expression expression_obj) parsed).
Proof.
  intros H. rewrite parse_expression_str in H. cbv zeta in H. split.
  - intros Hk. rewrite Hk in H. simpl in H.
    destruct (Function_new (strip s)) as [func0| |]; try discriminate. simpl in H.
    destruct (map_outcome _ _) as [parsed| |] eqn:Hargs; try discriminate.
    injection H as <-. exists func0, parsed. split; [reflexivity|]. split; [reflexivity|].
    apply map_outcome_Forall2. exact Hargs.
  - intros Hk Hearlier.
    rewrite (Hearlier KFunction), (Hearlier KRange), (Hearlier KReference),
      (Hearlier KConstant), Hk in H by (simpl; lia).
    simpl in H.
    destruct (Expression_new (strip s)) as [o| |]; try discriminate. simpl in H.
    destruct (map_outcome _ _) as [parsed| |] eqn:Hparts; try discriminate.
    injection H as <-. exists o, parsed. split; [reflexivity|]. split; [reflexivity|].
    apply map_outcome_Forall2. exact Hparts.
Qed.

(** X4: [parse_expression] trims the text first, so the text and the
    trimmed text are classified alike. *)
Theorem parse_expression_strip (s : string) (fuel : nat) :
  Parser.parse_expression fuel (PStr (strip s)) = Parser.parse_expression fuel (PStr s).
Proof.
  destruct fuel as [|fuel]; [reflexivity|].
  rewrite !parse_expression_str. rewrite strip_strip. reflexivity.
Qed.

(** X5: a parser that was constructed holds the text it was given as
    [full_formula], and that text is [=] followed by [formula]; a
    [translate] that returns keeps it so. *)
Theorem formula_invariant (formula_str : string) (self : parser) :
  Parser.init formula_str = Ret self ->
  full_formula self = formula_str /\
  full_formula self = "=" +:+ formula self /\
  forall fuel from_cell to_cell self',
    Parser.translate fuel self from_cell to_cell = Ret self' ->
    full_formula self' = formula_str /\ full_formula self' = "=" +:+ formula self'.
Proof.
  unfold Parser.init. intros H.
  destruct (String.prefix "=" formula_str) eqn:Hp; simpl in H; try discriminate.
  destruct (Expression_has_balanced_parentheses formula_str); simpl in H; try discriminate.
  injection H as <-. simpl. pose proof (prefix_eq _ Hp) as Heq.
  split; [reflexivity|]. split; [exact Heq|].
  intros fuel from_cell to_cell self'. unfold Parser.translate.
  destruct (Reference_new from_cell); try discriminate.
  destruct (Reference_new to_cell); try discriminate. simpl.
  destruct (Parser.parse _ _); try discriminate. simpl.
  destruct (Parser.recurse_translate _ _ _ _); try discriminate. simpl.
  intros H. injection H as <-. simpl. split; [reflexivity|exact Heq].
Qed.

(** X6: [translate] goes by the difference between the two cells only:
    two pairs of cells that are the same number of columns and rows apart
    give the same outcome. *)
Theorem translate_by_offset (fuel : nat) (self : parser)
    (from_cell to_cell from_cell' to_cell' : string)
    (from_ref to_ref from_ref' to_ref' : reference_obj) :
  Reference_new from_cell = Ret from_ref ->
  Reference_new to_cell = Ret to_ref ->
  Reference_new from_cell' = Ret from_ref' ->
  Reference_new to_cell' = Ret to_ref' ->
  (Reference_column_number to_ref - Reference_column_number from_ref
   = Reference_column_number to_ref' - Reference_column_number from_ref')%Z ->
  (Reference_row_number to_ref - Reference_row_number from_ref
   = Reference_row_number to_ref' - Reference_row_number from_ref')%Z ->
  Parser.translate fuel self from_cell to_cell
  = Parser.translate fuel self from_cell' to_cell'.
Proof.
  intros H1 H2 H3 H4 Hcol Hrow. unfold Parser.translate.
  rewrite H1, H2, H3, H4. simpl. rewrite Hcol, Hrow. reflexivity.
Qed.

Lemma recurse_translate_dict (col_shift row_shift : Z) (fuel : nat)
    (entries : list (string * value)) :
  dict_has "operator" entries = false ->
  dict_has "constant" entries = false ->
  dict_has "reference" entries = false ->
  Parser.recurse_translate col_shift row_shift (S fuel) (PDict entries)
  = let* entries' :=
      Parser.translate_items
        (Parser.recurse_translate col_shift row_shift fuel) (length entries) 0 entries in
    Ret (PDict entries').
Proof. intros H1 H2 H3. simpl. rewrite H1, H2. simpl. rewrite H3. reflexivity. Qed.

(** X7: in the tree [recurse_translate] returns, the cached string of a
    function call is the string of [Function.from_dict] applied to the
    node as it was handed in: the loop reaches the key [function] before
    the key [components], so the string is made before any argument is
    moved and does not depend on the shifts. *)
Theorem function_cached_string_before_move (col_shift row_shift : Z) (fuel : nat)
    (cached : string) (name : value) (arguments : list node) (v : value) :
  Parser.recurse_translate col_shift row_shift fuel
    (to_value (FunctionCall (PStr cached) name arguments)) = Ret v ->
  exists o,
    Function_from_dict (to_value (FunctionCall (PStr cached) name arguments)) = Ret o /\
    py_getitem v "function" = Ret (PStr (Function_str o)).
Proof.
  destruct fuel as [|fuel]; [discriminate|].
  change (to_value (FunctionCall (PStr cached) name arguments))
    with (PDict [("function", PStr cached);
                 ("components", PDict [("name", name);
                                       ("arguments", PList (map to_value arguments))])]).
  rewrite recurse_translate_dict by reflexivity.
  cbn -[Parser.recurse_translate].
  destruct (Function_from_dict _) as [o| |]; try discriminate.
  cbn -[Parser.recurse_translate].
  destruct (py_getitem (Function_to_dict o) "components") as [c| |]; try discriminate.
  cbn -[Parser.recurse_translate].
  intros H. exists o. split; [reflexivity|].
  destruct c; cbn -[Parser.recurse_translate] in H;
    try (injection H as <-; reflexivity);
    destruct (Parser.recurse_translate _ _ _ _) as [t| |]; try discriminate;
    cbn in H; injection H as <-; reflexivity.
Qed.

End FurtherOnAnyClasses.

(* --------------------------------------------------------------------- *)
(** *** Reconstruction and counting *)

(** X8: [json_to_string] does not skip what was not classified: a [None]
    among the arguments of a function call, or among the parts of an
    expression, makes the call raise [TypeError], whatever stands around
    it in the list. *)
Theorem json_to_string_unclassified_part (l : list node) (rest : list value) (fuel : nat)
    (cached name : value) :
  foldr Nat.max 0 (map depth l) < fuel ->
  Parser.json_to_string (S fuel)
    (PDict [("function", cached);
            ("components", PDict [("name", name);
                                  ("arguments", PList (map to_value l ++ PNone :: rest))])])
  = Raise TypeError /\
  Parser.json_to_string (S fuel)
    (PDict [("expression", cached);
            ("components", PList (map to_value l ++ PNone :: rest))])
  = Raise TypeError.
Proof.
  intros Hfuel.
  assert (H : map_outcome (Parser.json_to_string fuel) (map to_value l ++ PNone :: rest)
              = Raise TypeError).
  { rewrite map_outcome_app.
    rewrite rendered_children.
    - simpl. destruct fuel; [lia|]. reflexivity.
    - apply Forall_forall. intros n _ fuel' Hn. apply json_to_string_of_tree. exact Hn.
    - exact Hfuel. }
  split; cbn -[join String.append]; rewrite H; reflexivity.
Qed.

Lemma json_to_string_unclassified_part_witness :
  Parser.json_to_string 2
    (PDict [("function", PStr "SUM(A1, ?)");
            ("components", PDict [("name", PStr "SUM");
                                  ("arguments",
                                   PList (map to_value [cell "A" 1] ++ PNone :: []))])])
  = Raise TypeError.
Proof.
  apply (json_to_string_unclassified_part [cell "A" 1] [] 1 (PStr "SUM(A1, ?)") (PStr "SUM")).
  simpl; lia.
Defined.

Lemma scalar_occurrences (k : string) (v : value) : is_scalar v = true -> occurrences k v = 0.
Proof. destruct v; simpl; (reflexivity || discriminate). Qed.

Lemma scalar_lists (v : value) : is_scalar v = true -> lists_hold_no_list v = true.
Proof. destruct v; simpl; (reflexivity || discriminate). Qed.

Lemma sum_children (tag : string) (l : list node) :
  Forall (fun n => plain_leaves n = true -> occurrences tag (to_value n) = kind_count tag n) l ->
  forallb plain_leaves l = true ->
  sum_list_with (occurrences tag) (map to_value l) = sum_list_with (kind_count tag) l.
Proof.
  induction 1 as [|n l Hn _ IH]; simpl; intros Hok; [reflexivity|].
  apply andb_prop in Hok as [H1 H2]. rewrite Hn, IH by assumption. reflexivity.
Qed.

Lemma occurrences_kind_count (tag : string) (n : node) :
  existsb (String.eqb tag) recognized_tags = true ->
  plain_leaves n = true ->
  occurrences tag (to_value n) = kind_count tag n.
Proof.
  intros Htag.
  induction n as [cached name arguments IH|cached s e|cached sheet col row num|literal
                 |cached parts IH|symbol] using node_induction; simpl; intros Hok;
    repeat match goal with
           | H : _ && _ = true |- _ => apply andb_prop in H as [? ?]
           end;
    repeat match goal with
           | H : is_scalar ?v = true |- _ =>
               rewrite (scalar_occurrences tag v H); clear H
           end;
    try rewrite (sum_children tag _ IH) by assumption;
    unfold tag_is; simpl;
    unfold recognized_tags in Htag; simpl in Htag;
    repeat match goal with
           | |- context [String.eqb tag ?t] => destruct (String.eqb_spec tag t) as [->|?]
           | H : context [String.eqb tag ?t] |- _ => destruct (String.eqb_spec tag t) as [->|?]
           end; simpl in *; try discriminate; try congruence; try lia.
Qed.

Lemma plain_lists_children (l : list node) :
  Forall (fun n => plain_leaves n = true -> lists_hold_no_list (to_value n) = true) l ->
  forallb plain_leaves l = true ->
  forallb (fun x => negb (is_list x) && lists_hold_no_list x) (map to_value l) = true.
Proof.
  induction 1 as [|n l Hn _ IH]; simpl; intros Hok; [reflexivity|].
  apply andb_prop in Hok as [H1 H2]. rewrite Hn, IH by assumption.
  destruct n; reflexivity.
Qed.

Lemma plain_lists (n : node) :
  plain_leaves n = true -> lists_hold_no_list (to_value n) = true.
Proof.
  induction n as [cached name arguments IH|cached s e|cached sheet col row num|literal
                 |cached parts IH|symbol] using node_induction; simpl; intros Hok;
    repeat match goal with
           | H : _ && _ = true |- _ => apply andb_prop in H as [? ?]
           end;
    repeat match goal with
           | H : is_scalar ?v = true |- _ => rewrite (scalar_lists v H); clear H
           end;
    try rewrite (plain_lists_children _ IH) by assumption; reflexivity.
Qed.

Lemma to_value_entries (n : node) : to_value n = PDict (entries_of (to_value n)).
Proof. destruct n; reflexivity. Qed.

Lemma get_all_keys_with_counts_given (entries : list (string * value))
    (kc : gmap string nat) (label : option string) :
  Parser.get_all_keys_with_counts (PDict entries) (Some kc) label
  = Ret (visit (Parser.acceptable_keys label) (PDict entries) kc).
Proof. reflexivity. Qed.

(** X9: counted over a tree of nodes, the dictionary of
    [get_all_keys_with_counts] tells how many nodes of each kind the tree
    has: under [function] and under [arguments] the number of function
    calls, under each other tag the number of nodes of that kind, with no
    entry for a kind the tree does not have. *)
Theorem counts_by_kind (n : node) :
  plain_leaves n = true ->
  exists m, Parser.get_all_keys_with_counts (to_value n) None None = Ret m /\
    forall tag, m !! tag = if existsb (String.eqb tag) recognized_tags
                           then shown_count (kind_count tag n) else None.
Proof.
  intros Hok. rewrite (to_value_entries n). eexists.
  split; [apply get_all_keys_with_counts_visit|]. intros tag.
  rewrite <- (to_value_entries n).
  rewrite (visit_lookup _ _ (plain_lists n Hok)). unfold counted.
  rewrite lookup_empty, bump_none.
  change (Parser.acceptable_keys None) with Parser.default_acceptable_keys.
  rewrite default_acceptable_keys_tags.
  destruct (existsb (String.eqb tag) recognized_tags) eqn:Htag; [|reflexivity].
  rewrite (occurrences_kind_count tag n Htag Hok). reflexivity.
Qed.

Lemma counts_by_kind_witness :
  exists m, Parser.get_all_keys_with_counts (to_value SUM_A1_MAX_tree) None None = Ret m /\
    forall tag, m !! tag = if existsb (String.eqb tag) recognized_tags
                           then shown_count (kind_count tag SUM_A1_MAX_tree) else None.
Proof.
  apply (counts_by_kind SUM_A1_MAX_tree). vm_compute; reflexivity.
Defined.

(** X10: a dictionary of counts handed in as [keys_count] is counted on:
    after one tree with no [keys_count] and a second tree with the result
    of the first, each acceptable key has the sum of its occurrences in
    the two trees. *)
Theorem counts_add_up (d1 d2 : list (string * value)) (label : option string) :
  lists_hold_no_list (PDict d1) = true ->
  lists_hold_no_list (PDict d2) = true ->
  exists m1 m2,
    Parser.get_all_keys_with_counts (PDict d1) None label = Ret m1 /\
    Parser.get_all_keys_with_counts (PDict d2) (Some m1) label = Ret m2 /\
    forall k, m2 !! k = if bool_decide (k ∈ Parser.acceptable_keys label)
                        then shown_count (occurrences k (PDict d1) + occurrences k (PDict d2))
                        else None.
Proof.
  intros H1 H2. eexists. eexists.
  split; [apply get_all_keys_with_counts_visit|].
  split; [apply get_all_keys_with_counts_given|]. intros k.
  rewrite (visit_lookup _ _ H2), (visit_lookup _ _ H1), counted_counted.
  unfold counted. rewrite lookup_empty, bump_none. reflexivity.
Qed.

Lemma counts_add_up_witness :
  exists m1 m2,
    Parser.get_all_keys_with_counts (PDict (entries_of (to_value SUM_A1_B2_tree))) None None
    = Ret m1 /\
    Parser.get_all_keys_with_counts (PDict (entries_of (to_value SUM_A1_MAX_tree)))
      (Some m1) None = Ret m2 /\
    forall k, m2 !! k
              = if bool_decide (k ∈ Parser.acceptable_keys None)
                then shown_count
                       (occurrences k (PDict (entries_of (to_value SUM_A1_B2_tree)))
                        + occurrences k (PDict (entries_of (to_value SUM_A1_MAX_tree))))
                else None.
Proof.
  apply (counts_add_up (entries_of (to_value SUM_A1_B2_tree))
                       (entries_of (to_value SUM_A1_MAX_tree)) None).
  - vm_compute; reflexivity.
  - vm_compute; reflexivity.
Defined.

Lemma visit_skips_lists (A : gset string) (l1 l2 inner : list value) (kc : gmap string nat) :
  visit A (PList (l1 ++ PList inner :: l2)) kc = visit A (PList (l1 ++ l2)) kc.
Proof. simpl. rewrite !foldl_app. reflexivity. Qed.

(** X11: [count_keys] looks into the dictionaries of a list, not into a
    list that is itself an element of a list: whatever such an inner list
    holds, the counts are those of the tree without it. *)
Theorem list_in_list_not_counted (before after : list (string * value)) (key : string)
    (l1 l2 inner : list value) (keys_count : option (gmap string nat)) (label : option string) :
  Parser.get_all_keys_with_counts
    (PDict (before ++ (key, PList (l1 ++ PList inner :: l2)) :: after)) keys_count label
  = Parser.get_all_keys_with_counts
      (PDict (before ++ (key, PList (l1 ++ l2)) :: after)) keys_count label.
Proof.
  unfold Parser.get_all_keys_with_counts. f_equal.
  rewrite !count_keys_dict, !foldl_app. cbn [foldl fst snd].
  rewrite (visit_skips_lists _ l1 l2 inner). reflexivity.
Qed.

(* --------------------------------------------------------------------- *)
(** *** At the classes of the specification *)

Lemma unrecognized_formula_raises_witness :
  Parser.parse 1 unrecognized = Ret PNone /\
  Parser.reconstructed_formula 1 unrecognized = Raise TypeError /\
  Parser.translate 1 unrecognized "A1" "C3" = Raise TypeError.
Proof.
  assert (H : forall k, accepts k (strip (formula unrecognized)) = false)
    by (intros k; destruct k; vm_compute; reflexivity).
  destruct (unrecognized_formula_raises unrecognized 0 H) as (H1 & H2 & H3).
  split; [exact H1|]. split; [exact H2|].
  apply (H3 "A1" "C3"
            {| SpecModel.sheet_name := None; SpecModel.column_letter := "A";
               SpecModel.row_number := 1; SpecModel.column_number := 1 |}
            {| SpecModel.sheet_name := None; SpecModel.column_letter := "C";
               SpecModel.row_number := 3; SpecModel.column_number := 3 |});
    vm_compute; reflexivity.
Defined.

Lemma reclassify_fixed_point_witness :
  depth SUM_A1_B2_tree < 2 /\
  Parser.parse_expression 2 (to_value SUM_A1_B2_tree) = Ret (reclassified SUM_A1_B2_tree).
Proof.
  assert (H : depth SUM_A1_B2_tree < 2) by (simpl; lia).
  split; [exact H | exact (proj1 (reclassify_fixed_point SUM_A1_B2_tree 2 H))].
Defined.

Lemma arguments_keep_their_places_witness :
  exists func0 parsed,
    Function_new (strip "SUM(A1, ?)") = Ret func0 /\
    (let* components :=
       py_getitem
         (PDict [("function", PStr "SUM(A1, ?)");
                 ("components", PDict [("name", PStr "SUM");
                                       ("arguments", PList [to_value (cell "A" 1); PNone])])])
         "components" in
     py_getitem components "arguments")
    = Ret (PList parsed) /\
    Forall2 (fun raw node => Parser.parse_expression 1 raw = Ret node)
            (Function_args (Function_parse_arguments func0)) parsed.
Proof.
  assert (Hparse : Parser.parse_expression 2 (PStr "SUM(A1, ?)")
                   = Ret (PDict [("function", PStr "SUM(A1, ?)");
                                 ("components",
                                  PDict [("name", PStr "SUM");
                                         ("arguments",
                                          PList [to_value (cell "A" 1); PNone])])]))
    by (vm_compute; reflexivity).
  assert (Hk : accepts KFunction (strip "SUM(A1, ?)") = true) by (vm_compute; reflexivity).
  exact (proj1 (arguments_keep_their_places "SUM(A1, ?)" 1 _ Hparse) Hk).
Defined.

Lemma formula_invariant_witness :
  full_formula SUM_A1_B2 = "=SUM(A1, B2)" /\
  full_formula SUM_A1_B2 = "=" +:+ formula SUM_A1_B2.
Proof.
  assert (H : Parser.init "=SUM(A1, B2)" = Ret SUM_A1_B2) by (vm_compute; reflexivity).
  destruct (formula_invariant "=SUM(A1, B2)" SUM_A1_B2 H) as (H1 & H2 & _).
  split; [exact H1 | exact H2].
Defined.

Lemma translate_by_offset_witness :
  Parser.translate 4 SUM_A1_B2 "A1" "C3" = Parser.translate 4 SUM_A1_B2 "B2" "D4".
Proof.
  apply (translate_by_offset (ReferenceC := SpecModel.ReferenceModel)
           4 SUM_A1_B2 "A1" "C3" "B2" "D4"
           {| SpecModel.sheet_name := None; SpecModel.column_letter := "A";
              SpecModel.row_number := 1; SpecModel.column_number := 1 |}
           {| SpecModel.sheet_name := None; SpecModel.column_letter := "C";
              SpecModel.row_number := 3; SpecModel.column_number := 3 |}
           {| SpecModel.sheet_name := None; SpecModel.column_letter := "B";
              SpecModel.row_number := 2; SpecModel.column_number := 2 |}
           {| SpecModel.sheet_name := None; SpecModel.column_letter := "D";
              SpecModel.row_number := 4; SpecModel.column_number := 4 |});
    vm_compute; reflexivity.
Defined.

Lemma function_cached_string_before_move_witness :
  exists o,
    Function_from_dict
      (to_value (FunctionCall (PStr "SUM(A1, B2)") (PStr "SUM") [cell "A" 1; cell "B" 2]))
    = Ret o /\
    py_getitem (to_value (shifted 2 2 SUM_A1_B2_tree)) "function"
    = Ret (PStr (Function_str o)).
Proof.
  apply (function_cached_string_before_move 2 2 4 "SUM(A1, B2)" (PStr "SUM")
           [cell "A" 1; cell "B" 2] (to_value (shifted 2 2 SUM_A1_B2_tree))).
  vm_compute; reflexivity.
Defined.

(* --------------------------------------------------------------------- *)
(** *** Translation, over any classes *)

Section TranslationOnAnyClasses.

Context {FunctionC : FunctionClass} {RangeC : RangeClass}
        {ReferenceC : ReferenceClass} {ConstantC : ConstantClass}
        {ExpressionC : ExpressionClass}.

(** The loop of [recurse_translate] over a dictionary of two items. *)
Lemma translate_items_two (recurse : value -> outcome value) (k1 k2 : string) (v1 v2 : value) :
  Parser.translate_items recurse 2 0 [(k1, v1); (k2, v2)]
  = let* data' := Parser.translate_item recurse k1 v1 [(k1, v1); (k2, v2)] in
    match data' !! 1 with
    | None => Ret data'
    | Some (key, value0) => Parser.translate_item recurse key value0 data'
    end.
Proof.
  simpl. destruct (Parser.translate_item recurse k1 v1 _) as [data'| |]; simpl; try reflexivity.
  destruct (data' !! 1) as [[key value0]|]; [|reflexivity].
  destruct (Parser.translate_item recurse key value0 data'); reflexivity.
Qed.

(** X12: [recurse_translate] never reads the components an Expression node
    or a Range node comes with. The loop reaches the kind tag first, has
    [reconstruct_expression] build the object from the cached string alone
    and puts that object's components in the place of the node's own,
    before it gets to the key [components]: two nodes with the same cached
    string have the same outcome, whatever their parts or endpoints. *)
Theorem components_not_read (col_shift row_shift : Z) (fuel : nat) (cached : string)
    (components components' : value) :
  Parser.recurse_translate col_shift row_shift fuel
    (PDict [("expression", PStr cached); ("components", components)])
  = Parser.recurse_translate col_shift row_shift fuel
      (PDict [("expression", PStr cached); ("components", components')]) /\
  Parser.recurse_translate col_shift row_shift fuel
    (PDict [("range", PStr cached); ("components", components)])
  = Parser.recurse_translate col_shift row_shift fuel
      (PDict [("range", PStr cached); ("components", components')]).
Proof.
  destruct fuel as [|fuel]; [split; reflexivity|].
  split; rewrite !recurse_translate_dict by reflexivity;
    cbn [length]; rewrite !translate_items_two;
    cbn -[Parser.recurse_translate lookup].
  - destruct Expression_from_dict as [from_dict|]; cbn -[Parser.recurse_translate lookup];
      [|reflexivity].
    destruct (from_dict _) as [o| |]; cbn -[Parser.recurse_translate lookup]; reflexivity.
  - destruct Range_from_dict as [from_dict|]; cbn -[Parser.recurse_translate lookup];
      [|reflexivity].
    destruct (from_dict _) as [o| |]; cbn -[Parser.recurse_translate lookup]; reflexivity.
Qed.

(** X13: translations do not add up. [translate] parses the text of the
    formula anew, so on a parser that was translated before it does what
    it does on the parser as it was: of a chain of calls the last alone
    decides the tree that is stored. *)
Theorem translations_do_not_add_up (fuel fuel' : nat) (self self1 : parser)
    (a b c d : string) :
  Parser.translate fuel self a b = Ret self1 ->
  Parser.translate fuel' self1 c d = Parser.translate fuel' self c d.
Proof.
  unfold Parser.translate. intros H.
  destruct (Reference_new a); try discriminate.
  destruct (Reference_new b); try discriminate. simpl in H.
  destruct (Parser.parse fuel self); try discriminate. simpl in H.
  destruct (Parser.recurse_translate _ _ fuel _); try discriminate. simpl in H.
  injection H as <-. reflexivity.
Qed.

End TranslationOnAnyClasses.

Lemma translations_do_not_add_up_witness :
  Parser.translate 4
    {| formula := "SUM(A1, B2)";
       full_formula := "=SUM(A1, B2)";
       parsed_formula := Some (to_value (shifted 2 2 SUM_A1_B2_tree)) |} "A1" "B2"
  = Parser.translate 4 SUM_A1_B2 "A1" "B2".
Proof.
  apply (translations_do_not_add_up 4 4 SUM_A1_B2 _ "A1" "C3" "A1" "B2").
  vm_compute; reflexivity.
Defined.
